(** * chem2smiles: a shallow embedding of [chem2smiles.py]

    The script is a thin command-line driver around three external
    collaborators: the RDKit parser and depiction routines, the PubChemPy
    lookup, and the file system.  The embedding keeps the control flow of
    the three functions of the script ([name_to_smiles],
    [save_molecule_image], [main]) and makes every collaborator an
    explicit oracle, so that the statements below quantify over all
    behaviours of the collaborators.

    What the model fixes:
    - a collaborator either returns or fails with an instance of
      [Exception]; [KeyboardInterrupt] reaches the program while it waits
      on the standard input;
    - the standard output accepts every line: [print] does not fail;
      [open], [f.write], the close that ends a [with] block, reading a
      file and reading the standard input may all fail;
    - text is UTF-8: a string is the sequence of the bytes of its
      encoding, and [str.strip] removes the white space of Unicode;
    - the files of the model are those a path of the user can name; two
      paths may name one file; what [pip] adds to the Python installation
      is summed up by whether [pubchempy] is importable;
    - [parse_args] has run: the program starts from the namespace. *)

From Stdlib Require Import ZArith Ascii String List Lia.
From stdpp Require Import base option list strings gmap.

Local Open Scope string_scope.
Local Open Scope Z_scope.

(** ** Python values and exceptions *)

(** The exception classes the script distinguishes.  [except ImportError]
    selects the first, [except Exception] selects all of them. *)
Inductive exn_class := ImportError | OSError | OtherError.

(** An instance of [Exception]; [err_msg] is what [str(e)] prints. *)
Record error := mk_error { err_class : exn_class; err_msg : string }.

(** What can unwind the Python stack: an [Exception] instance, or
    [KeyboardInterrupt], which derives from [BaseException] only. *)
Inductive exn :=
| Exc (e : error)
| KeyboardInterrupt.

(** The result of calling a collaborator. *)
Inductive outcome (A : Type) :=
| Returned (a : A)
| Failed (e : error).
Arguments Returned {A} a.
Arguments Failed {A} e.

(** An RDKit molecule object, opaque to the script.  It defines neither
    [__bool__] nor [__len__], so [if mol:] and [if mol is not None:]
    agree on it. *)
Inductive Mol := MolObj (id : string).

(** A PIL image as produced by [Draw.MolToImage(mol, size=(w, h))]. *)
Record Image := mk_image { img_mol : Mol; img_width : Z; img_height : Z }.

(** A PubChemPy compound; [canonical_smiles] is [None] when the record
    lacks the property. *)
Record Compound := mk_compound { cid : Z; canonical_smiles : option string }.

(** What a file holds. *)
Inductive content :=
| Text (s : string)
| Picture (img : Image).

(** How the standard input ends: at its end, by an interrupt, or by an
    error of the read (undecodable bytes, a closed terminal). *)
Inductive stdin_end := EOF | Interrupt | Broken (e : error).

(** Result of [pip install pubchempy]: the child process fails, or it
    exits with status 0 and the module is importable afterwards or not. *)
Inductive pip_outcome :=
| PipFailed (e : error)
| PipDone (importable : bool).

(** ** Events

    Every call that leaves the interpreter is recorded, in order. *)
Inductive event :=
| EvPrint (line : string)                 (* print(line) *)
| EvParse (s : string)                    (* Chem.MolFromSmiles(s) *)
| EvImport                                (* from pubchempy import get_compounds *)
| EvLookup (name : string)                (* get_compounds(name, 'name') *)
| EvInstall                               (* subprocess.check_call([... pip install pubchempy]) *)
| EvDraw (m : Mol) (w h : Z)              (* Draw.MolToImage(m, size=(w, h)) *)
| EvSave (path : string)                  (* img.save(path) *)
| EvOpenR (path : string)                 (* open(path, 'r') *)
| EvOpenW (path : string)                 (* open(path, 'w') *)
| EvWrite (path : string) (data : string) (* f.write(data) *)
| EvClose (path : string)                 (* the close that ends [with open(path, 'w')] *).

(** ** The environment and the world *)

(** The collaborators, as oracles.  A write, a close or a save that
    fails says what it leaves in the file; a save may also fail before
    the file is touched ([None]). *)
Record Env := mk_env {
  MolFromSmiles : string -> outcome (option Mol);
  get_compounds : string -> outcome (list Compound);
  pip_install : pip_outcome;
  MolToImage_fails : Mol -> option error;
  save_fails : string -> option (error * option content);
  open_w_fails : string -> option error;
  write_fails : string -> string -> option (error * string);
  close_fails : string -> option (error * string);
  read_fault : string -> option (nat * error);
  missing_text : string -> string;
  undecodable_text : string -> string;
  stdin_lines : list string;
  stdin_closes : stdin_end
}.

(** The files: [canon] sends a path to the file it names (two paths
    with the same image name one file), [files] holds what each file
    contains. *)
Record FS := mk_fs {
  canon : string -> string;
  files : gmap string content
}.

(** [f !! path]: what the file named by [path] holds. *)
Global Instance fs_lookup : Lookup string content FS :=
  fun path f => files f !! canon f path.

(** [<[path := c]> f]: the file named by [path] now holds [c]. *)
Global Instance fs_insert : Insert string content FS :=
  fun path c f => {| canon := canon f; files := <[canon f path := c]> (files f) |}.

(** The mutable part: the events so far, the files, and whether
    [pubchempy] is importable. *)
Record World := mk_world {
  trace : list event;
  fs : FS;
  pubchempy : bool
}.

Definition emit (ev : event) (w : World) : World :=
  {| trace := trace w ++ [ev]; fs := fs w; pubchempy := pubchempy w |}.

Definition set_fs (f : FS) (w : World) : World :=
  {| trace := trace w; fs := f; pubchempy := pubchempy w |}.

Definition set_pubchempy (b : bool) (w : World) : World :=
  {| trace := trace w; fs := fs w; pubchempy := b |}.

(** ** The monad of the interpreter: state and exceptions *)

Inductive res (A : Type) :=
| Ok (a : A)
| Raise (x : exn).
Arguments Ok {A} a.
Arguments Raise {A} x.

Definition M (A : Type) : Type := World -> res A * World.

Definition ret {A} (a : A) : M A := fun w => (Ok a, w).

Definition raise {A} (x : exn) : M A := fun w => (Raise x, w).

Definition bind {A B} (c : M A) (k : A -> M B) : M B :=
  fun w => match c w with
           | (Ok a, w') => k a w'
           | (Raise x, w') => (Raise x, w')
           end.

Declare Scope py_scope.
Delimit Scope py_scope with py.
Notation "x <- c ;; k" := (bind c (fun x => k))
  (at level 20, c at level 99, k at level 200, only parsing) : py_scope.
Notation "c ;; k" := (bind c (fun _ => k))
  (at level 100, k at level 200, only parsing, right associativity) : py_scope.
Local Open Scope py_scope.

(** [try: body except Exception as e: handler e]. *)
Definition try_except {A} (body : M A) (handler : error -> M A) : M A :=
  fun w => match body w with
           | (Raise (Exc e), w') => handler e w'
           | r => r
           end.

(** [try: body except ImportError: h1 except Exception as e: h2 e]. *)
Definition try_except_import {A} (body : M A) (h1 : M A) (h2 : error -> M A) : M A :=
  fun w => match body w with
           | (Raise (Exc e), w') =>
               match err_class e with
               | ImportError => h1 w'
               | _ => h2 e w'
               end
           | r => r
           end.

(** [try: body except KeyboardInterrupt: pass]. *)
Definition try_except_interrupt (body : M unit) : M unit :=
  fun w => match body w with
           | (Raise KeyboardInterrupt, w') => (Ok tt, w')
           | r => r
           end.

(** Lifting a collaborator's answer into the interpreter. *)
Definition lift {A} (o : outcome A) : M A :=
  match o with
  | Returned a => ret a
  | Failed e => raise (Exc e)
  end.

Definition lift_unit (o : option error) : M unit :=
  match o with
  | None => ret tt
  | Some e => raise (Exc e)
  end.

Definition log (ev : event) : M unit := fun w => (Ok tt, emit ev w).

Definition print (line : string) : M unit := log (EvPrint line).

(** ** Python built-ins *)

(** Truth value of an [str | None]. *)
Definition truthy (o : option string) : bool :=
  match o with
  | Some s => negb (String.eqb s "")
  | None => false
  end.

(** [str.isspace] on the ASCII range: TAB, LF, VT, FF, CR, FS, GS, RS, US
    and the space. *)
Definition py_isspace (c : ascii) : bool :=
  let n := nat_of_ascii c in
  ((9 <=? n) && (n <=? 13) || (28 <=? n) && (n <=? 32))%nat.

(** The white space of two bytes: U+0085 and U+00A0. *)
Definition py_isspace2 (c d : ascii) : bool :=
  let n := nat_of_ascii c in
  let m := nat_of_ascii d in
  ((n =? 194) && ((m =? 133) || (m =? 160)))%nat.

(** The white space of three bytes: U+1680, U+2000 to U+200A, U+2028,
    U+2029, U+202F, U+205F and U+3000. *)
Definition py_isspace3 (c d e : ascii) : bool :=
  let n := nat_of_ascii c in
  let m := nat_of_ascii d in
  let k := nat_of_ascii e in
  ((n =? 225) && (m =? 154) && (k =? 128)
   || (n =? 226) && (m =? 128)
      && ((128 <=? k) && (k <=? 138) || (k =? 168) || (k =? 169) || (k =? 175))
   || (n =? 226) && (m =? 129) && (k =? 159)
   || (n =? 227) && (m =? 128) && (k =? 128))%nat.

(** [s.lstrip()]: the white space characters at the front are dropped,
    whatever their length in bytes. *)
Fixpoint lstrip (s : string) : string :=
  match s with
  | EmptyString => EmptyString
  | String c s1 =>
      if py_isspace c then lstrip s1
      else
        match s1 with
        | EmptyString => s
        | String d s2 =>
            if py_isspace2 c d then lstrip s2
            else
              match s2 with
              | EmptyString => s
              | String e s3 => if py_isspace3 c d e then lstrip s3 else s
              end
        end
  end.

(** Nothing but white space. *)
Definition all_space (s : string) : bool := String.eqb (lstrip s) "".

(** [s.rstrip()]: the string up to its last character that is not white
    space. *)
Fixpoint rstrip (s : string) : string :=
  if all_space s then EmptyString
  else
    match s with
    | EmptyString => EmptyString
    | String c s' => String c (rstrip s')
    end.

(** [s.strip()]. *)
Definition strip (s : string) : string := rstrip (lstrip s).

(** Iterating over a text file opened with universal newlines: the lines
    of [s], each with its terminator translated to LF. *)
Fixpoint py_lines_go (cur : string) (s : string) : list string :=
  match s with
  | EmptyString => if String.eqb cur "" then [] else [String.rev cur]
  | String c s' =>
      if Ascii.eqb c "010" then String.rev (String "010" cur) :: py_lines_go "" s'
      else if Ascii.eqb c "013" then
        match s' with
        | String c' s'' =>
            if Ascii.eqb c' "010" then String.rev (String "010" cur) :: py_lines_go "" s''
            else String.rev (String "010" cur) :: py_lines_go "" s'
        | EmptyString => [String.rev (String "010" cur)]
        end
      else py_lines_go (String c cur) s'
  end.

Definition py_lines (s : string) : list string := py_lines_go "" s.

(** [f"{x}"] for an [str | None]. *)
Definition py_str (o : option string) : string :=
  match o with
  | Some s => s
  | None => "None"
  end.

(** The value of an optional command-line argument when [if args.x:]
    succeeds, that is when it was supplied and is not the empty string. *)
Definition given (o : option string) : option string :=
  match o with
  | Some s => if String.eqb s "" then None else Some s
  | None => None
  end.

(** The namespace returned by [parser.parse_args()]. *)
Record Args := mk_args {
  input : option string;
  output : option string;
  image : option string;
  batch : bool
}.

Definition TAB : string := String "009" "".
Definition LF : string := String "010" "".

(** ** The script *)

Section Script.

Variable env : Env.

(** *** Calls to the collaborators *)

Definition call_MolFromSmiles (s : string) : M (option Mol) :=
  log (EvParse s) ;; lift (MolFromSmiles env s).

Definition import_pubchempy : M unit :=
  log EvImport ;;
  fun w => if pubchempy w then (Ok tt, w)
           else (Raise (Exc (mk_error ImportError "No module named 'pubchempy'")), w).

Definition call_get_compounds (name : string) : M (list Compound) :=
  log (EvLookup name) ;; lift (get_compounds env name).

Definition call_pip_install : M unit :=
  log EvInstall ;;
  match pip_install env with
  | PipFailed e => raise (Exc e)
  | PipDone importable =>
      fun w => (Ok tt, if importable then set_pubchempy true w else w)
  end.

Definition call_MolToImage (m : Mol) (w h : Z) : M Image :=
  log (EvDraw m w h) ;; lift_unit (MolToImage_fails env m) ;; ret (mk_image m w h).

(** The file named by [path] now holds [c]. *)
Definition store (path : string) (c : content) : M unit :=
  fun w => (Ok tt, set_fs (<[path := c]> (fs w)) w).

(** [img.save(path)]: the picture is stored, or the save fails, before
    the file was opened or leaving in it what the oracle says. *)
Definition call_save (img : Image) (path : string) : M unit :=
  log (EvSave path) ;;
  match save_fails env path with
  | None => store path (Picture img)
  | Some (e, None) => raise (Exc e)
  | Some (e, Some rest) => store path rest ;; raise (Exc e)
  end.

(** [open(path, 'w')]: creates the file or truncates it. *)
Definition open_w (path : string) : M unit :=
  log (EvOpenW path) ;; lift_unit (open_w_fails env path) ;;
  store path (Text "").

(** [f.write(data)] on a file opened by [open_w]: the data is added to
    the file, or the write fails and leaves what the oracle says. *)
Definition write (path data : string) : M unit :=
  log (EvWrite path data) ;;
  match write_fails env path data with
  | Some (e, rest) => store path (Text rest) ;; raise (Exc e)
  | None =>
      fun w => (Ok tt,
                set_fs (match fs w !! path with
                        | Some (Text s) => <[path := Text (s +:+ data)]> (fs w)
                        | _ => <[path := Text data]> (fs w)
                        end) w)
  end.

(** The close at the end of a [with open(path, 'w')] block: it flushes
    what was written, and may fail doing so. *)
Definition close_w (path : string) : M unit :=
  log (EvClose path) ;;
  match close_fails env path with
  | Some (e, rest) => store path (Text rest) ;; raise (Exc e)
  | None => ret tt
  end.

(** [with open(path, 'w') as f: body]: the file is closed when the body
    ends, normally or not; an exception of the body goes on after the
    close, unless the close raises one itself. *)
Definition with_open_w {A} (path : string) (body : M A) : M A :=
  open_w path ;;
  fun w => match body w with
           | (Ok a, w1) => (close_w path ;; ret a) w1
           | (Raise x, w1) => (close_w path ;; raise x) w1
           end.

(** [open(path, 'r')] and the iterator over its lines: the lines that
    will be delivered, and the error that ends the iteration if any. *)
Definition open_r (path : string) : M (list string * option error) :=
  log (EvOpenR path) ;;
  fun w => match fs w !! path with
           | None => (Raise (Exc (mk_error OSError (missing_text env path))), w)
           | Some (Text s) =>
               match read_fault env path with
               | None => (Ok (py_lines s, None), w)
               | Some (n, e) => (Ok (take n (py_lines s), Some e), w)
               end
           | Some (Picture _) =>
               (Ok ([], Some (mk_error OtherError (undecodable_text env path))), w)
           end.

(** *** [name_to_smiles] *)

(** Lines 35-40: the body of the inner [try]. *)
Definition pubchem_lookup (chemical_name : string) : M (option string) :=
  import_pubchempy ;;
  compounds <- call_get_compounds chemical_name ;;
  match compounds with
  | c :: _ => ret (canonical_smiles c)
  | [] =>
      print ("No compounds found for '" +:+ chemical_name +:+ "' in PubChem") ;;
      ret None
  end.

(** Lines 44-50: the body of the [try] inside [except ImportError]. *)
Definition pubchem_install_and_retry (chemical_name : string) : M (option string) :=
  call_pip_install ;;
  import_pubchempy ;;
  compounds <- call_get_compounds chemical_name ;;
  match compounds with
  | c :: _ => ret (canonical_smiles c)
  | [] => ret None
  end.

Definition name_to_smiles (chemical_name : string) : M (option string) :=
  try_except
    (mol <- call_MolFromSmiles chemical_name ;;
     match mol with
     | Some _ => ret (Some chemical_name)
     | None =>
         try_except_import
           (pubchem_lookup chemical_name)
           (print "PubChemPy not installed. Installing it with: pip install pubchempy" ;;
            try_except
              (pubchem_install_and_retry chemical_name)
              (fun e => print ("Failed to install or use PubChemPy: " +:+ err_msg e) ;;
                        ret None))
           (fun e => print ("PubChem lookup failed: " +:+ err_msg e) ;; ret None)
     end)
    (fun e => print ("Error processing " +:+ chemical_name +:+ ": " +:+ err_msg e) ;;
              ret None).

(** *** [save_molecule_image] *)

Definition save_molecule_image (smiles output_file : string) : M unit :=
  try_except
    (mol <- call_MolFromSmiles smiles ;;
     match mol with
     | Some m =>
         img <- call_MolToImage m 400 400 ;;
         call_save img output_file ;;
         print ("Molecular structure saved to " +:+ output_file)
     | None => print "Could not generate molecular structure image"
     end)
    (fun e => print ("Error generating image: " +:+ err_msg e)).

(** *** [main] *)

Definition arrow_line (name : string) (smiles : option string) : string :=
  if truthy smiles then name +:+ " → " +:+ py_str smiles
  else "Could not convert: " +:+ name.

Definition file_line (name : string) (smiles : option string) : string :=
  if truthy smiles then name +:+ TAB +:+ py_str smiles +:+ LF
  else name +:+ TAB +:+ "NOT_FOUND" +:+ LF.

(** Lines 93-101: [for line in sys.stdin]. *)
Fixpoint interactive_loop (lines : list string) (closes : stdin_end) : M unit :=
  match lines with
  | [] =>
      match closes with
      | EOF => ret tt
      | Interrupt => raise KeyboardInterrupt
      | Broken e => raise (Exc e)
      end
  | line :: rest =>
      let name := strip line in
      if String.eqb name "" then interactive_loop rest closes
      else
        smiles <- name_to_smiles name ;;
        print (arrow_line name smiles) ;;
        interactive_loop rest closes
  end.

(** Lines 110-115: [for line in f], appending to [results]. *)
Fixpoint batch_loop (lines : list string) (fault : option error)
    (results : list (string * option string)) : M (list (string * option string)) :=
  match lines with
  | [] =>
      match fault with
      | None => ret results
      | Some e => raise (Exc e)
      end
  | line :: rest =>
      let name := strip line in
      if String.eqb name "" then batch_loop rest fault results
      else
        smiles <- name_to_smiles name ;;
        batch_loop rest fault (results ++ [(name, smiles)])
  end.

(** Lines 120-124. *)
Fixpoint write_results (path : string) (results : list (string * option string)) : M unit :=
  match results with
  | [] => ret tt
  | (name, smiles) :: rest =>
      write path (file_line name smiles) ;;
      write_results path rest
  end.

(** Lines 127-131. *)
Fixpoint print_results (results : list (string * option string)) : M unit :=
  match results with
  | [] => ret tt
  | (name, smiles) :: rest =>
      print (arrow_line name smiles) ;;
      print_results rest
  end.

Definition interactive_mode : M unit :=
  print "Enter chemical names (Ctrl+D or Ctrl+Z to exit):" ;;
  try_except_interrupt (interactive_loop (stdin_lines env) (stdin_closes env)).

(** Lines 108-115: reading the queries and resolving them. *)
Definition batch_collect (args_input : string) : M (list (string * option string)) :=
  f <- open_r args_input ;;
  batch_loop (fst f) (snd f) [].

(** Lines 117-131: the report, to the output file or to the standard
    output. *)
Definition batch_report (args_output : option string)
    (results : list (string * option string)) : M unit :=
  match given args_output with
  | Some out =>
      with_open_w out (write_results out results) ;;
      print ("Results written to " +:+ out)
  | None => print_results results
  end.

Definition batch_mode (args_input : string) (args_output : option string) : M unit :=
  try_except
    (results <- batch_collect args_input ;;
     batch_report args_output results)
    (fun e => print ("Error: " +:+ err_msg e)).

(** Lines 138-143: the structure, to the output file or to the standard
    output. *)
Definition single_report (args_output : option string) (smiles : option string)
    : M unit :=
  match given args_output with
  | Some out =>
      with_open_w out (write out (py_str smiles +:+ LF)) ;;
      print ("SMILES written to " +:+ out)
  | None => print (py_str smiles)
  end.

Definition single_mode (args_input : string) (args_output args_image : option string)
    : M unit :=
  smiles <- name_to_smiles args_input ;;
  if truthy smiles then
    single_report args_output smiles ;;
    match given args_image with
    | Some img => save_molecule_image (py_str smiles) img
    | None => ret tt
    end
  else print ("Could not convert: " +:+ args_input).

Definition main (args : Args) : M unit :=
  match given (input args) with
  | None => interactive_mode
  | Some inp =>
      if batch args then batch_mode inp (output args)
      else single_mode inp (output args) (image args)
  end.

End Script.

(** ** Observations on a trace *)

(** The lines printed on the standard output. *)
Fixpoint stdout_of (t : list event) : list string :=
  match t with
  | [] => []
  | EvPrint line :: t' => line :: stdout_of t'
  | _ :: t' => stdout_of t'
  end.

Definition is_install (ev : event) : bool :=
  match ev with EvInstall => true | _ => false end.

Definition is_lookup (ev : event) : bool :=
  match ev with EvLookup _ => true | _ => false end.

Definition is_draw (ev : event) : bool :=
  match ev with EvDraw _ _ _ => true | _ => false end.

(** The events [name_to_smiles] may cause: it prints, parses, imports,
    looks up and installs; it never touches a file or draws. *)
Definition is_resolver_event (ev : event) : bool :=
  match ev with
  | EvPrint _ | EvParse _ | EvImport | EvLookup _ | EvInstall => true
  | _ => false
  end.

(** Parsing, importing, looking up, installing: the work of a resolution. *)
Definition is_resolution (ev : event) : bool :=
  match ev with
  | EvParse _ | EvImport | EvLookup _ | EvInstall => true
  | _ => false
  end.

(** Opening a file for writing, writing to it, or closing it. *)
Definition is_file_output (ev : event) : bool :=
  match ev with
  | EvOpenW _ | EvWrite _ _ | EvClose _ => true
  | _ => false
  end.

Definition count_events (p : event -> bool) (t : list event) : nat :=
  length (List.filter p t).

(** The events of a report: prints, and the output file. *)
Definition is_report_event (ev : event) : bool :=
  match ev with
  | EvPrint _ | EvOpenW _ | EvWrite _ _ | EvClose _ => true
  | _ => false
  end.

(** The depictions requested so far. *)
Definition draws (w : World) : list event := List.filter is_draw (trace w).

(** ** The vocabulary of the statements *)

(** The queries of a file or stream: its lines stripped, the blank ones
    dropped, in order. *)
Definition query_names (lines : list string) : list string :=
  List.filter (fun name => negb (String.eqb name "")) (map strip lines).

(** [resolved_in_turn env w names rs w']: calling [name_to_smiles] on
    [names] one after the other from world [w], each call starting where
    the previous one stopped, returns [rs] and ends in [w']. *)
Inductive resolved_in_turn (env : Env) :
    World -> list string -> list (option string) -> World -> Prop :=
| rit_done w : resolved_in_turn env w [] [] w
| rit_next w name r w1 names rs w2 :
    name_to_smiles env name w = (Ok r, w1) ->
    resolved_in_turn env w1 names rs w2 ->
    resolved_in_turn env w (name :: names) (r :: rs) w2.

(** What the iteration over the input file delivers when the file is a
    text file: its lines, all of them or those before the read error. *)
Definition delivered_lines (env : Env) (path content : string) : list string :=
  match read_fault env path with
  | None => py_lines content
  | Some (n, _) => take n (py_lines content)
  end.

(** The text of a file written record after record. *)
Definition join (records : list string) : string := fold_right String.append "" records.

(** The structure field of a record of the output file, as the batch
    format words it: the structure, or the sentinel when there is none
    (no structure at all, or an empty one). *)
Definition record_field (r : option string) : string :=
  match r with
  | None => "NOT_FOUND"
  | Some EmptyString => "NOT_FOUND"
  | Some s => s
  end.

(** [NAME<TAB>STRUCTURE_OR_SENTINEL<LF>]. *)
Definition record (name : string) (r : option string) : string :=
  name +:+ TAB +:+ record_field r +:+ LF.

(** The line of the standard output for a query, in the arrow format. *)
Definition report_line (name : string) (r : option string) : string :=
  match r with
  | None => "Could not convert: " +:+ name
  | Some EmptyString => "Could not convert: " +:+ name
  | Some s => name +:+ " → " +:+ s
  end.

Definition is_parse (ev : event) : bool :=
  match ev with EvParse _ => true | _ => false end.

(** The lookup of [s] does not end in an [ImportError]. *)
Definition lookup_imports_cleanly (env : Env) (s : string) : Prop :=
  forall e, get_compounds env s = Failed e -> err_class e <> ImportError.

(** The module still to be installed: 1 when [pubchempy] is not
    importable. *)
Definition missing_modules (b : bool) : nat := if b then 0%nat else 1%nat.

(** The output file can be written: [open], every [f.write] and the
    closing flush succeed. *)
Definition writable (env : Env) (path : string) : Prop :=
  open_w_fails env path = None /\
  (forall data, write_fails env path data = None) /\
  close_fails env path = None.

(** Two paths that name one file. *)
Definition same_file (f : FS) (p q : string) : Prop := canon f p = canon f q.

(** [f'] differs from [f] at most in the file named by [path]. *)
Definition touches_only (path : string) (f f' : FS) : Prop :=
  canon f' = canon f /\
  forall k, k <> canon f path -> files f' !! k = files f !! k.

(** A computation that only reports: it prints and works on the file
    named by [out], it changes no other file, and it ends normally or
    with an [Exception]. *)
Definition reports_to (out : string) (c : M unit) : Prop :=
  forall w, exists r evs f,
    c w = (r, {| trace := trace w ++ evs; fs := f; pubchempy := pubchempy w |})
    /\ Forall is_report_event evs
    /\ r <> Raise KeyboardInterrupt
    /\ touches_only out (fs w) f.

(** [answered_in_turn env w names w']: interactive mode's answers to
    [names] from world [w]: each name is resolved by [name_to_smiles] and
    its line is printed before the next name is looked at. *)
Inductive answered_in_turn (env : Env) : World -> list string -> World -> Prop :=
| ait_done w : answered_in_turn env w [] w
| ait_next w name r w1 names w2 :
    name_to_smiles env name w = (Ok r, w1) ->
    answered_in_turn env (emit (EvPrint (report_line name r)) w1) names w2 ->
    answered_in_turn env w (name :: names) w2.

(** A character given by the bytes of its UTF-8 encoding. *)
Definition utf8 (bytes : list nat) : string :=
  fold_right (fun n s => String (ascii_of_nat n) s) EmptyString bytes.

(** The characters Python takes for white space: U+0009 to U+000D,
    U+001C to U+0020, U+0085, U+00A0, U+1680, U+2000 to U+200A, U+2028,
    U+2029, U+202F, U+205F and U+3000. *)
Definition white_space : list string :=
  map utf8
    [[9]; [10]; [11]; [12]; [13]; [28]; [29]; [30]; [31]; [32];
     [194; 133]; [194; 160]; [225; 154; 128];
     [226; 128; 128]; [226; 128; 129]; [226; 128; 130]; [226; 128; 131];
     [226; 128; 132]; [226; 128; 133]; [226; 128; 134]; [226; 128; 135];
     [226; 128; 136]; [226; 128; 137]; [226; 128; 138];
     [226; 128; 168]; [226; 128; 169]; [226; 128; 175];
     [226; 129; 159]; [227; 128; 128]]%nat.

(** No white space character at either end. *)
Definition trimmed (s : string) : Prop :=
  forall c x, In c white_space -> s <> c +:+ x /\ s <> x +:+ c.

(** Nothing but white space characters. *)
Definition white (pad : string) : Prop :=
  exists cs, Forall (fun c => In c white_space) cs /\ pad = join cs.


(** The three input modes of the CLI driver. *)
Inductive Mode :=
| Interactive
| Batch (path : string)
| Single (value : string).

(** The mode by the truth value of the positional argument: an argument
    that is absent or the empty string selects interactive mode;
    otherwise the batch flag decides. *)
Definition select_mode (args : Args) : Mode :=
  match input args with
  | None => Interactive
  | Some EmptyString => Interactive
  | Some v => if batch args then Batch v else Single v
  end.

Definition run_mode (env : Env) (args : Args) (mode : Mode) : M unit :=
  match mode with
  | Interactive => interactive_mode env
  | Batch path => batch_mode env path (output args)
  | Single value => single_mode env value (output args) (image args)
  end.

(** ** A laboratory: concrete collaborators for the examples

    The validator accepts three SMILES strings; PubChem knows water,
    ethanol and one compound, "hollow", whose record carries an empty
    string. *)
Module Lab.

Definition rdkit (s : string) : outcome (option Mol) :=
  if String.eqb s "CCO" then Returned (Some (MolObj "CCO"))
  else if String.eqb s "O" then Returned (Some (MolObj "O"))
  else if String.eqb s "c1ccccc1" then Returned (Some (MolObj "c1ccccc1"))
  else Returned None.

Definition pubchem (name : string) : outcome (list Compound) :=
  if String.eqb name "water" then Returned [mk_compound 962 (Some "O")]
  else if String.eqb name "ethanol" then Returned [mk_compound 702 (Some "CCO")]
  else if String.eqb name "hollow" then Returned [mk_compound 1 (Some "")]
  else Returned [].

Definition no_permission (path : string) : option error :=
  if String.eqb path "/proc/out.txt"
  then Some (mk_error OSError "[Errno 13] Permission denied: '/proc/out.txt'")
  else None.

(** A device that takes every write and fails when the file is closed. *)
Definition full_device (path : string) : option (error * string) :=
  if String.eqb path "/dev/full"
  then Some (mk_error OSError "[Errno 28] No space left on device", "")
  else None.

(** A machine: RDKit draws and saves without fault, [/proc/out.txt]
    cannot be opened, [/dev/full] cannot be flushed; the validator, the
    lookup, [pip], the read faults and the standard input are given. *)
Definition machine (parse : string -> outcome (option Mol))
    (lookup : string -> outcome (list Compound)) (pip : pip_outcome)
    (fault : string -> option (nat * error))
    (lines : list string) (closes : stdin_end) : Env := {|
  MolFromSmiles := parse;
  get_compounds := lookup;
  pip_install := pip;
  MolToImage_fails := fun _ => None;
  save_fails := fun _ => None;
  open_w_fails := no_permission;
  write_fails := fun _ _ => None;
  close_fails := full_device;
  read_fault := fault;
  missing_text := fun path => "[Errno 2] No such file or directory: '" +:+ path +:+ "'";
  undecodable_text := fun _ =>
    "'utf-8' codec can't decode byte 0x89 in position 0: invalid start byte";
  stdin_lines := lines;
  stdin_closes := closes
|}.

Definition env : Env := machine rdkit pubchem (PipDone true) (fun _ => None) [] EOF.

(** The same, on a machine where [pip] cannot reach the index. *)
Definition offline_env : Env :=
  machine rdkit pubchem
    (PipFailed (mk_error OtherError
       "Command '['python', '-m', 'pip', 'install', 'pubchempy']' returned non-zero exit status 1."))
    (fun _ => None) [] EOF.

(** [./name] and [name] are one file. *)
Definition canon_path (path : string) : string :=
  match path with
  | String "." (String "/" rest) => rest
  | _ => path
  end.

(** The bytes of U+00A0 and of U+2003. *)
Definition NBSP : string := String (ascii_of_nat 194) (String (ascii_of_nat 160) "").
Definition EM_SPACE : string :=
  String (ascii_of_nat 226) (String (ascii_of_nat 128) (String (ascii_of_nat 131) "")).

(** A machine with [pubchempy] installed and four files. *)
Definition world : World := {|
  trace := [];
  fs := {| canon := canon_path;
           files :=
             {[ "names.txt" := Text ("water" +:+ LF +:+ LF +:+ "  bogusname " +:+ LF);
                "nbsp.txt" := Text (NBSP +:+ "water" +:+ NBSP +:+ LF +:+ EM_SPACE +:+ LF);
                "odd.txt" := Text ("hollow" +:+ LF);
                "old.txt" := Text "previous content" ]} |};
  pubchempy := true
|}.

(** The same machine before [pubchempy] was installed. *)
Definition bare_world : World := set_pubchempy false world.

End Lab.

(** ** Proof tools *)

Ltac unfold_calls :=
  unfold name_to_smiles, save_molecule_image, pubchem_lookup,
    pubchem_install_and_retry, call_MolFromSmiles, import_pubchempy,
    call_get_compounds, call_pip_install, call_MolToImage, call_save,
    store, open_w, open_r, write, close_w, with_open_w, try_except, try_except_import, try_except_interrupt,
    print, log, lift, lift_unit, bind, ret, raise.

(** Brings a world built by successive [emit]s into the shape
    [trace w ++ e1 :: e2 :: ...]. *)
Ltac world_shape :=
  unfold emit, set_pubchempy, set_fs; cbn [trace fs pubchempy];
  rewrite <- ?app_assoc; cbn [app].

(** Case analysis on the innermost scrutinee of the goal. *)
Ltac case_split :=
  match goal with
  | |- context [match ?x with _ => _ end] =>
      lazymatch x with
      | context [match _ with _ => _ end] => fail
      | _ => destruct x eqn:?
      end
  end.

Ltac run_all := unfold_calls; repeat (cbn; case_split); cbn; world_shape.

(** ** Files *)

Lemma fs_lookup_insert_eq (f : FS) p c : <[p := c]> f !! p = Some c.
Proof. unfold lookup, fs_lookup, insert, fs_insert. cbn. apply lookup_insert_eq. Qed.

Lemma fs_lookup_insert_ne (f : FS) p q c :
  ~ same_file f p q -> <[p := c]> f !! q = f !! q.
Proof.
  intros Hpq. unfold lookup, fs_lookup, insert, fs_insert. cbn.
  apply lookup_insert_ne. exact Hpq.
Qed.

Lemma fs_insert_insert (f : FS) p c c' : <[p := c]> (<[p := c']> f) = <[p := c]> f.
Proof. unfold insert, fs_insert. cbn. now rewrite insert_insert_eq. Qed.

Lemma fs_insert_id (f : FS) p c : f !! p = Some c -> <[p := c]> f = f.
Proof.
  unfold lookup, fs_lookup, insert, fs_insert. intros H.
  rewrite insert_id by exact H. now destruct f.
Qed.

Lemma touches_only_refl path f : touches_only path f f.
Proof. split; [reflexivity | intros; reflexivity]. Qed.

Lemma touches_only_insert path c f : touches_only path f (<[path := c]> f).
Proof.
  split; [reflexivity |]. intros k Hk. unfold insert, fs_insert. cbn.
  apply lookup_insert_ne. congruence.
Qed.

Lemma touches_only_trans path f1 f2 f3 :
  touches_only path f1 f2 -> touches_only path f2 f3 -> touches_only path f1 f3.
Proof.
  intros [Hc1 H1] [Hc2 H2]. split; [congruence |].
  intros k Hk. rewrite H2, H1; [reflexivity | exact Hk |]. rewrite Hc1. exact Hk.
Qed.

Lemma touches_only_lookup path f f' p :
  touches_only path f f' -> ~ same_file f path p -> f' !! p = f !! p.
Proof.
  intros [Hc H] Hp. unfold lookup, fs_lookup. rewrite Hc. apply H.
  intros Heq. apply Hp. unfold same_file. congruence.
Qed.

(** ** White space *)

(** The white space characters of Unicode, in UTF-8. *)
Example strip_unicode_space :
  strip (Lab.NBSP +:+ " water" +:+ Lab.EM_SPACE +:+ TAB +:+ LF) = "water" /\
  strip (Lab.EM_SPACE +:+ Lab.NBSP +:+ LF) = "" /\
  strip ("a" +:+ Lab.NBSP +:+ "b") = "a" +:+ Lab.NBSP +:+ "b" /\
  strip "é" = "é".
Proof. repeat split; reflexivity. Qed.

(** ** The documented scenarios, run on the laboratory *)

(** A valid notation passes through. *)
Example scenario_valid_notation :
  fst (name_to_smiles Lab.env "CCO" Lab.world) = Ok (Some "CCO").
Proof. reflexivity. Qed.

(** An unknown name in single mode. *)
Example scenario_unknown_name :
  let run := main Lab.env (mk_args (Some "nonexistentchemicalxyz123") None None false)
               Lab.world in
  fst run = Ok tt /\
  stdout_of (trace (snd run))
  = ["No compounds found for 'nonexistentchemicalxyz123' in PubChem";
     "Could not convert: nonexistentchemicalxyz123"].
Proof. split; reflexivity. Qed.

(** A batch to the standard output: the diagnostics of the resolutions
    come first, the results follow in the order of the file. *)
Example scenario_batch_stdout :
  stdout_of (trace (snd (main Lab.env (mk_args (Some "names.txt") None None true)
                           Lab.world)))
  = ["No compounds found for 'bogusname' in PubChem";
     "water → O";
     "Could not convert: bogusname"].
Proof. reflexivity. Qed.

(** The same batch to a file. *)
Example scenario_batch_file :
  fs (snd (main Lab.env (mk_args (Some "names.txt") (Some "results.txt") None true)
             Lab.world)) !! "results.txt"
  = Some (Text ("water" +:+ TAB +:+ "O" +:+ LF +:+
                "bogusname" +:+ TAB +:+ "NOT_FOUND" +:+ LF)).
Proof. vm_compute. reflexivity. Qed.

(** An interrupt at the prompt ends interactive mode without a
    diagnostic. *)
Example scenario_interrupt :
  let env := Lab.machine Lab.rdkit Lab.pubchem (PipDone true) (fun _ => None) (["water" +:+ LF]) Interrupt in
  let run := main env (mk_args None None None false) Lab.world in
  fst run = Ok tt /\
  stdout_of (trace (snd run))
  = ["Enter chemical names (Ctrl+D or Ctrl+Z to exit):"; "water → O"].
Proof. split; reflexivity. Qed.

(** A read error after the first line of the input: the first query is
    resolved, the error is reported, and the output file keeps what it
    held. *)
Example scenario_read_error :
  let env := Lab.machine Lab.rdkit Lab.pubchem (PipDone true) (fun _ => Some (1%nat, mk_error OSError
                                               "[Errno 5] Input/output error")) [] EOF in
  let run := main env (mk_args (Some "names.txt") (Some "old.txt") None true)
               Lab.world in
  fst run = Ok tt /\
  trace (snd run)
  = [EvOpenR "names.txt"; EvParse "water"; EvImport; EvLookup "water";
     EvPrint "Error: [Errno 5] Input/output error"] /\
  fs (snd run) !! "old.txt" = Some (Text "previous content").
Proof. split; [reflexivity |]. split; [reflexivity |]. vm_compute. reflexivity. Qed.

(** Without [pubchempy] and without network, the failed install is
    reported and the name is not converted. *)
Example scenario_offline :
  let run := name_to_smiles Lab.offline_env "water" Lab.bare_world in
  fst run = Ok None /\
  stdout_of (trace (snd run))
  = ["PubChemPy not installed. Installing it with: pip install pubchempy";
     "Failed to install or use PubChemPy: Command '['python', '-m', 'pip', 'install', 'pubchempy']' returned non-zero exit status 1."].
Proof. split; reflexivity. Qed.

(** ** The Resolver *)

(** [name_to_smiles] always returns: it adds resolver events to the
    trace, leaves the files alone, and may only change whether
    [pubchempy] is importable. *)
Lemma name_to_smiles_effect env s w :
  exists r evs b,
    name_to_smiles env s w
      = (Ok r, {| trace := trace w ++ evs; fs := fs w; pubchempy := b |})
    /\ Forall is_resolver_event evs.
Proof.
  run_all; (eexists _, _, _; split; [reflexivity | repeat constructor]).
Qed.

(** C2. A string that [Chem.MolFromSmiles] accepts is returned as it is,
    and the only call that leaves the interpreter is that parse: nothing
    is imported, looked up, installed or printed. *)
Theorem name_to_smiles_valid_passthrough env s m w :
  MolFromSmiles env s = Returned (Some m) ->
  name_to_smiles env s w = (Ok (Some s), emit (EvParse s) w).
Proof.
  intros Hm. unfold_calls. cbn. rewrite Hm. reflexivity.
Qed.

Lemma name_to_smiles_valid_passthrough_witness :
  MolFromSmiles Lab.env "CCO" = Returned (Some (MolObj "CCO")) /\
  name_to_smiles Lab.env "CCO" Lab.world
    = (Ok (Some "CCO"), emit (EvParse "CCO") Lab.world).
Proof.
  split; [reflexivity |].
  apply (name_to_smiles_valid_passthrough Lab.env "CCO" (MolObj "CCO") Lab.world).
  reflexivity.
Defined.

(** X4. When [pubchempy] is importable and PubChem returns no candidate
    for a name the validator rejects, the Resolver returns [None] after
    one query and prints [No compounds found for '<name>' in PubChem]. *)
Lemma zero_candidates_reported env s w :
  MolFromSmiles env s = Returned None ->
  pubchempy w = true ->
  get_compounds env s = Returned [] ->
  exists w',
    name_to_smiles env s w = (Ok None, w') /\
    trace w' = (trace w ++
      [EvParse s; EvImport; EvLookup s;
       EvPrint ("No compounds found for '" +:+ s +:+ "' in PubChem")])%list.
Proof.
  intros Hm Hp Hc. unfold_calls. cbn. rewrite Hm. cbn. rewrite Hp. cbn.
  rewrite Hc. cbn. eexists. split; [reflexivity |]. world_shape. reflexivity.
Qed.

(** After a successful install the retried query has no [else] branch:
    zero candidates are answered by [None] and nothing more is printed. *)
Lemma zero_candidates_unreported_after_install env s w :
  MolFromSmiles env s = Returned None ->
  pubchempy w = false ->
  pip_install env = PipDone true ->
  get_compounds env s = Returned [] ->
  exists w',
    name_to_smiles env s w = (Ok None, w') /\
    trace w' = (trace w ++
      [EvParse s; EvImport;
       EvPrint "PubChemPy not installed. Installing it with: pip install pubchempy";
       EvInstall; EvImport; EvLookup s])%list.
Proof.
  intros Hm Hp Hpip Hc. unfold_calls. cbn. rewrite Hm. cbn. rewrite Hp. cbn.
  rewrite Hpip. cbn. rewrite Hc. cbn.
  eexists. split; [reflexivity |]. world_shape. reflexivity.
Qed.

(** C4. On a machine without [pubchempy] where the install succeeds, a
    name with zero candidates is answered by [None] and the only line
    printed is the install notice: the retried query (lines 48-50) has no
    [else] branch, so no "not found" diagnostic is emitted. *)
Theorem zero_candidates_silent_after_install :
  exists w',
    MolFromSmiles Lab.env "bogusname" = Returned None /\
    get_compounds Lab.env "bogusname" = Returned [] /\
    name_to_smiles Lab.env "bogusname" Lab.bare_world = (Ok None, w') /\
    trace w' =
      [EvParse "bogusname"; EvImport;
       EvPrint "PubChemPy not installed. Installing it with: pip install pubchempy";
       EvInstall; EvImport; EvLookup "bogusname"] /\
    stdout_of (trace w') =
      ["PubChemPy not installed. Installing it with: pip install pubchempy"].
Proof.
  eexists. split; [reflexivity |]. split; [reflexivity |].
  split; [reflexivity |]. split; reflexivity.
Qed.




(** ** The Renderer *)

(** C6. [save_molecule_image] returns normally on every input.  When the
    string does not parse, or the parser, the depiction or the save
    raises, the last thing it does is print a diagnostic; otherwise the
    picture is stored at the path.  Whatever happens, no file but the one
    named by the path is changed, and that one only by the save. *)
Theorem save_molecule_image_never_raises env smiles path w :
  exists w',
    save_molecule_image env smiles path w = (Ok tt, w') /\
    touches_only path (fs w) (fs w') /\
    match MolFromSmiles env smiles with
    | Returned (Some m) =>
        match MolToImage_fails env m with
        | Some e =>
            fs w' = fs w /\
            last (trace w') = Some (EvPrint ("Error generating image: " +:+ err_msg e))
        | None =>
            match save_fails env path with
            | None =>
                fs w' = <[path := Picture (mk_image m 400 400)]> (fs w) /\
                last (trace w')
                = Some (EvPrint ("Molecular structure saved to " +:+ path))
            | Some (e, _) =>
                last (trace w')
                = Some (EvPrint ("Error generating image: " +:+ err_msg e))
            end
        end
    | Returned None =>
        fs w' = fs w /\
        last (trace w') = Some (EvPrint "Could not generate molecular structure image")
    | Failed e =>
        fs w' = fs w /\
        last (trace w') = Some (EvPrint ("Error generating image: " +:+ err_msg e))
    end.
Proof.
  unfold_calls. repeat (cbn; case_split); cbn;
    (eexists; split; [reflexivity |]; cbn; split;
     [first [apply touches_only_refl | apply touches_only_insert] |]);
    try (split; [reflexivity |]); unfold emit; cbn [trace]; apply last_snoc.
Qed.

(** What [save_molecule_image] does to the trace: at most one depiction,
    and only at 400 by 400. *)
Lemma save_molecule_image_draws env smiles path w :
  List.filter is_draw (trace (snd (save_molecule_image env smiles path w)))
  = (List.filter is_draw (trace w) ++
     match MolFromSmiles env smiles with
     | Returned (Some m) => [EvDraw m 400 400]
     | _ => []
     end)%list.
Proof.
  unfold_calls. repeat (cbn; case_split); cbn; world_shape;
    rewrite List.filter_app; cbn; reflexivity.
Qed.

(** ** The loops of the CLI driver *)

Lemma resolved_in_turn_effect env w names rs w' :
  resolved_in_turn env w names rs w' ->
  length rs = length names /\
  fs w' = fs w /\
  exists evs, trace w' = (trace w ++ evs)%list /\ Forall is_resolver_event evs.
Proof.
  induction 1 as [w | w name r w1 names rs w2 Hrun _ (Hlen & Hfs & evs2 & Htr & Hev)].
  - repeat split. exists []. rewrite app_nil_r. auto.
  - destruct (name_to_smiles_effect env name w) as (r' & evs1 & b & Heq & Hev1).
    rewrite Heq in Hrun. injection Hrun as -> <-. cbn in *.
    repeat split; [congruence | assumption |].
    exists (evs1 ++ evs2)%list. rewrite Htr, app_assoc.
    split; [reflexivity | apply Forall_app; auto].
Qed.

(** The loop of lines 110-115 resolves the queries in turn and appends
    one pair per query; a read error ends it with that error. *)
Lemma batch_loop_resolves env lines fault acc w :
  exists rs w',
    resolved_in_turn env w (query_names lines) rs w' /\
    batch_loop env lines fault acc w
    = (match fault with
       | None => Ok (acc ++ zip (query_names lines) rs)%list
       | Some e => Raise (Exc e)
       end, w').
Proof.
  revert acc w. induction lines as [| line rest IH]; intros acc w.
  - exists [], w. split; [constructor |]. cbn.
    destruct fault; [reflexivity |]. cbn. rewrite app_nil_r. reflexivity.
  - unfold query_names in *. cbn [batch_loop map List.filter].
    destruct (String.eqb (strip line) "") eqn:Hblank; cbn [negb].
    + apply IH.
    + destruct (name_to_smiles_effect env (strip line) w) as (r & evs & b & Heq & _).
      destruct (IH (acc ++ [(strip line, r)])%list
                  {| trace := trace w ++ evs; fs := fs w; pubchempy := b |})
        as (rs & w' & Hrit & Hloop).
      exists (r :: rs), w'. split; [econstructor; eassumption |].
      unfold bind. rewrite Heq, Hloop.
      destruct fault; [reflexivity |].
      cbn. rewrite <- app_assoc. reflexivity.
Qed.

(** ** Strings and records *)

Lemma string_app_nil_r (s : string) : s +:+ "" = s.
Proof.
  induction s as [| c s IH]; [reflexivity |].
  change (String c (s +:+ "") = String c s). now rewrite IH.
Qed.

Lemma string_app_assoc (s1 s2 s3 : string) : (s1 +:+ s2) +:+ s3 = s1 +:+ (s2 +:+ s3).
Proof.
  induction s1 as [| c s1 IH]; [reflexivity |].
  change (String c ((s1 +:+ s2) +:+ s3) = String c (s1 +:+ (s2 +:+ s3))).
  now rewrite IH.
Qed.

Lemma file_line_record name r : file_line name r = record name r.
Proof. destruct r as [[| c s] |]; reflexivity. Qed.

Lemma arrow_line_report name r : arrow_line name r = report_line name r.
Proof. destruct r as [[| c s] |]; reflexivity. Qed.


Lemma world_eta w : {| trace := trace w; fs := fs w; pubchempy := pubchempy w |} = w.
Proof. destruct w; reflexivity. Qed.

(** Lines 120-124 write one record per result, appending to the file,
    when no write fails. *)
Lemma write_results_effect env out results w s0 :
  (forall data, write_fails env out data = None) ->
  fs w !! out = Some (Text s0) ->
  write_results env out results w
  = (Ok tt,
     {| trace := trace w ++ map (fun p => EvWrite out (record (fst p) (snd p))) results;
        fs := <[out := Text (s0 +:+ join (map (fun p => record (fst p) (snd p)) results))]>
                (fs w);
        pubchempy := pubchempy w |}).
Proof.
  intros Hwrite. revert w s0.
  induction results as [| [name r] rest IH]; intros w s0 Hout.
  - cbn. rewrite app_nil_r, string_app_nil_r, fs_insert_id by assumption.
    now rewrite world_eta.
  - cbn [write_results]. unfold bind at 1. unfold write, log, bind.
    rewrite Hwrite. cbn. rewrite Hout. cbn.
    erewrite IH by (cbn; apply fs_lookup_insert_eq).
    cbn. rewrite fs_insert_insert, <- app_assoc, string_app_assoc, file_line_record.
    reflexivity.
Qed.

Lemma reports_to_ret out : reports_to out (ret tt).
Proof.
  intros w. exists (Ok tt), [], (fs w). rewrite app_nil_r, world_eta.
  split; [reflexivity |]. split; [constructor |].
  split; [discriminate | apply touches_only_refl].
Qed.

Lemma reports_to_raise out e : reports_to out (raise (Exc e)).
Proof.
  intros w. exists (Raise (Exc e)), [], (fs w). rewrite app_nil_r, world_eta.
  split; [reflexivity |]. split; [constructor |].
  split; [discriminate | apply touches_only_refl].
Qed.

Lemma reports_to_log out ev : is_report_event ev -> reports_to out (log ev).
Proof.
  intros Hev w. exists (Ok tt), [ev], (fs w).
  split; [reflexivity |]. split; [repeat constructor; exact Hev |].
  split; [discriminate | apply touches_only_refl].
Qed.

Lemma reports_to_store out c : reports_to out (store out c).
Proof.
  intros w. exists (Ok tt), [], (<[out := c]> (fs w)). rewrite app_nil_r.
  split; [reflexivity |]. split; [constructor |].
  split; [discriminate | apply touches_only_insert].
Qed.

Lemma reports_to_bind out c (k : unit -> M unit) :
  reports_to out c -> (forall u, reports_to out (k u)) -> reports_to out (bind c k).
Proof.
  intros Hc Hk w. destruct (Hc w) as (r & evs & f & Heq & Hev & Hki & Hf).
  unfold bind. rewrite Heq. destruct r as [u | x].
  - destruct (Hk u {| trace := trace w ++ evs; fs := f; pubchempy := pubchempy w |})
      as (r2 & evs2 & f2 & Heq2 & Hev2 & Hki2 & Hf2).
    rewrite Heq2. cbn [trace fs pubchempy]. rewrite <- app_assoc.
    exists r2, (evs ++ evs2)%list, f2. split; [reflexivity |].
    split; [apply Forall_app; auto |]. split; [assumption |].
    cbn in Hf2. exact (touches_only_trans _ _ _ _ Hf Hf2).
  - exists (Raise x), evs, f. auto.
Qed.

Lemma reports_to_write env out data : reports_to out (write env out data).
Proof.
  unfold write. apply reports_to_bind; [apply reports_to_log; exact I |]. intros _.
  destruct (write_fails env out data) as [[e rest] |].
  - apply reports_to_bind; [apply reports_to_store | intros _; apply reports_to_raise].
  - intros w. eexists (Ok tt), [], _. rewrite app_nil_r.
    split; [reflexivity |]. split; [constructor |]. split; [discriminate |].
    destruct (fs w !! out) as [[s | img] |]; apply touches_only_insert.
Qed.

Lemma reports_to_close env out : reports_to out (close_w env out).
Proof.
  unfold close_w. apply reports_to_bind; [apply reports_to_log; exact I |]. intros _.
  destruct (close_fails env out) as [[e rest] |].
  - apply reports_to_bind; [apply reports_to_store | intros _; apply reports_to_raise].
  - apply reports_to_ret.
Qed.

Lemma reports_to_open env out : reports_to out (open_w env out).
Proof.
  unfold open_w. apply reports_to_bind; [apply reports_to_log; exact I |]. intros _.
  apply reports_to_bind; [| intros _; apply reports_to_store].
  unfold lift_unit. destruct (open_w_fails env out);
    [apply reports_to_raise | apply reports_to_ret].
Qed.

Lemma reports_to_with_open env out body :
  reports_to out body -> reports_to out (with_open_w env out body).
Proof.
  intros Hbody. unfold with_open_w.
  apply reports_to_bind; [apply reports_to_open |]. intros _ w.
  destruct (Hbody w) as (r & evs & f & Heq & Hev & Hki & Hf).
  rewrite Heq. destruct r as [[] | x].
  - destruct (reports_to_bind out _ (fun _ => ret tt) (reports_to_close env out)
                (fun _ => reports_to_ret out)
                {| trace := trace w ++ evs; fs := f; pubchempy := pubchempy w |})
      as (r2 & evs2 & f2 & Heq2 & Hev2 & Hki2 & Hf2).
    rewrite Heq2. cbn [trace fs pubchempy]. rewrite <- app_assoc.
    exists r2, (evs ++ evs2)%list, f2. split; [reflexivity |].
    split; [apply Forall_app; auto |]. split; [assumption |].
    cbn in Hf2. exact (touches_only_trans _ _ _ _ Hf Hf2).
  - destruct x as [e |]; [| congruence].
    destruct (reports_to_bind out _ (fun _ => raise (Exc e)) (reports_to_close env out)
                (fun _ => reports_to_raise out e)
                {| trace := trace w ++ evs; fs := f; pubchempy := pubchempy w |})
      as (r2 & evs2 & f2 & Heq2 & Hev2 & Hki2 & Hf2).
    rewrite Heq2. cbn [trace fs pubchempy]. rewrite <- app_assoc.
    exists r2, (evs ++ evs2)%list, f2. split; [reflexivity |].
    split; [apply Forall_app; auto |]. split; [assumption |].
    cbn in Hf2. exact (touches_only_trans _ _ _ _ Hf Hf2).
Qed.

Lemma reports_to_write_results env out results :
  reports_to out (write_results env out results).
Proof.
  induction results as [| [name r] rest IH]; cbn [write_results].
  - apply reports_to_ret.
  - apply reports_to_bind; [apply reports_to_write | intros _; exact IH].
Qed.

(** Lines 127-131 print one line per result. *)
Lemma print_results_effect results w :
  print_results results w
  = (Ok tt,
     {| trace := trace w ++ map (fun p => EvPrint (report_line (fst p) (snd p))) results;
        fs := fs w;
        pubchempy := pubchempy w |}).
Proof.
  revert w. induction results as [| [name r] rest IH]; intros w.
  - cbn. now rewrite app_nil_r, world_eta.
  - cbn [print_results]. unfold bind at 1. unfold print, log. cbn.
    rewrite IH. cbn. now rewrite <- app_assoc, arrow_line_report.
Qed.

(** ** Batch mode *)

(** Reading and resolving: lines 108-115 open the input, resolve the
    queries in turn, and either return one pair per query or raise an
    [Exception]; the files are not touched. *)
Lemma batch_collect_effect env path w :
  exists r res_evs b,
    let w1 := {| trace := trace w ++ EvOpenR path :: res_evs;
                 fs := fs w; pubchempy := b |} in
    batch_collect env path w = (r, w1)
    /\ Forall is_resolver_event res_evs
    /\ r <> Raise KeyboardInterrupt
    /\ forall content, fs w !! path = Some (Text content) ->
         exists rs,
           resolved_in_turn env (emit (EvOpenR path) w)
             (query_names (delivered_lines env path content)) rs w1
           /\ r = match read_fault env path with
                  | None => Ok (zip (query_names (delivered_lines env path content)) rs)
                  | Some (_, e) => Raise (Exc e)
                  end.
Proof.
  unfold batch_collect, open_r, log, bind. cbn.
  destruct (fs w !! path) as [[content | img] |] eqn:Hfile.
  - destruct (batch_loop_resolves env (delivered_lines env path content)
                (snd <$> read_fault env path) [] (emit (EvOpenR path) w))
      as (rs & w' & Hrit & Hloop).
    destruct (resolved_in_turn_effect _ _ _ _ _ Hrit) as (_ & Hfs & evs & Htr & Hev).
    destruct w' as [t f b]. cbn in Hfs, Htr. subst t f.
    rewrite <- app_assoc in Hrit, Hloop. cbn [app] in Hrit, Hloop.
    exists (match read_fault env path with
            | None => Ok (zip (query_names (delivered_lines env path content)) rs)
            | Some (_, e) => Raise (Exc e)
            end), evs, b.
    split; [| split; [assumption | split]].
    + unfold delivered_lines in *.
      destruct (read_fault env path) as [[n e] |]; cbn in *; exact Hloop.
    + destruct (read_fault env path) as [[n e] |]; discriminate.
    + intros content' Hc'. injection Hc' as <-. exists rs. split; [assumption | reflexivity].
  - cbn. eexists _, [], _. split; [reflexivity |].
    split; [constructor | split; [discriminate | intros ? [=]]].
  - eexists _, [], _. split; [reflexivity |].
    split; [constructor | split; [discriminate | intros ? [=]]].
Qed.

(** The report to a file that can be opened: the file is truncated and
    receives one record per result. *)
Lemma batch_report_file env args_output out results w :
  given args_output = Some out ->
  writable env out ->
  batch_report env args_output results w
  = (Ok tt,
     {| trace := trace w ++
          EvOpenW out :: map (fun p => EvWrite out (record (fst p) (snd p))) results
          ++ [EvClose out; EvPrint ("Results written to " +:+ out)];
        fs := <[out := Text (join (map (fun p => record (fst p) (snd p)) results))]> (fs w);
        pubchempy := pubchempy w |}).
Proof.
  intros Hout (Hopen & Hwrite & Hclose). unfold batch_report. rewrite Hout.
  unfold with_open_w, open_w, close_w, store, print, log, lift_unit, bind, ret.
  rewrite Hopen. cbn.
  erewrite write_results_effect by (try exact Hwrite; cbn; apply fs_lookup_insert_eq).
  rewrite Hclose. unfold emit, set_fs. cbn [trace fs pubchempy].
  rewrite fs_insert_insert, <- !app_assoc. reflexivity.
Qed.

(** The report to a file that cannot be opened raises at [open]. *)
Lemma batch_report_denied env args_output out e results w :
  given args_output = Some out ->
  open_w_fails env out = Some e ->
  batch_report env args_output results w = (Raise (Exc e), emit (EvOpenW out) w).
Proof.
  intros Hout Hopen. unfold batch_report. rewrite Hout.
  unfold with_open_w, open_w, print, log, lift_unit, bind, raise.
  rewrite Hopen. reflexivity.
Qed.

(** The report to the standard output. *)
Lemma batch_report_stdout env args_output results w :
  given args_output = None ->
  batch_report env args_output results w
  = (Ok tt,
     {| trace := trace w ++ map (fun p => EvPrint (report_line (fst p) (snd p))) results;
        fs := fs w;
        pubchempy := pubchempy w |}).
Proof.
  intros Hout. unfold batch_report. rewrite Hout. apply print_results_effect.
Qed.

Lemma Forall_map_event {A} (P : event -> Prop) (f : A -> event) (l : list A) :
  (forall a, P (f a)) -> Forall P (map f l).
Proof. intros H. induction l; cbn; constructor; auto. Qed.

Lemma reports_to_print out line : reports_to out (print line).
Proof. apply reports_to_log. exact I. Qed.

Lemma batch_report_effect env args_output results w :
  exists r out_evs f,
    batch_report env args_output results w
    = (r, {| trace := trace w ++ out_evs; fs := f; pubchempy := pubchempy w |})
    /\ Forall is_report_event out_evs
    /\ r <> Raise KeyboardInterrupt
    /\ match given args_output with
       | Some out => touches_only out (fs w) f
       | None => f = fs w
       end.
Proof.
  destruct (given args_output) as [out |] eqn:Hout.
  - unfold batch_report. rewrite Hout.
    apply (reports_to_bind out _ (fun _ => print ("Results written to " +:+ out))).
    + apply reports_to_with_open, reports_to_write_results.
    + intros _. apply reports_to_print.
  - erewrite batch_report_stdout by eassumption.
    eexists _, _, _. split; [reflexivity |]. split; [| split; [discriminate | reflexivity]].
    apply Forall_map_event. intros. exact I.
Qed.

(** Batch mode as a whole: it always returns; its events are the opening
    of the input, then those of the resolutions, then those of the
    report; when reading and resolving raises, the files are left as they
    were and the report consists of a printed diagnostic. *)
Lemma batch_mode_effect env path args_output w :
  exists res_evs out_evs f b,
    batch_mode env path args_output w
    = (Ok tt, {| trace := trace w ++ EvOpenR path :: res_evs ++ out_evs;
                 fs := f; pubchempy := b |})
    /\ Forall is_resolver_event res_evs
    /\ Forall is_report_event out_evs
    /\ (forall content, fs w !! path = Some (Text content) ->
          exists rs,
            resolved_in_turn env (emit (EvOpenR path) w)
              (query_names (delivered_lines env path content)) rs
              {| trace := trace w ++ EvOpenR path :: res_evs; fs := fs w; pubchempy := b |})
    /\ (forall x w1, batch_collect env path w = (Raise x, w1) ->
          f = fs w /\ Forall (fun ev => is_file_output ev = false) out_evs)
    /\ match given args_output with
       | Some out => touches_only out (fs w) f
       | None => f = fs w
       end.
Proof.
  destruct (batch_collect_effect env path w) as (r & res_evs & b & Hc & Hres & Hki & Hrit).
  cbn zeta in Hc, Hrit.
  assert (Hsame : match given args_output with
                  | Some out => touches_only out (fs w) (fs w)
                  | None => fs w = fs w
                  end)
    by (destruct (given args_output); [apply touches_only_refl | reflexivity]).
  unfold batch_mode, try_except, bind. rewrite Hc.
  destruct r as [results | [e |]]; [| | congruence].
  - destruct (batch_report_effect env args_output results
                {| trace := trace w ++ EvOpenR path :: res_evs; fs := fs w; pubchempy := b |})
      as (r2 & out_evs & f & Hr & Hout & Hki2 & Hframe).
    rewrite Hr. cbn [trace fs pubchempy] in *.
    destruct r2 as [[] | [e |]]; [| | congruence].
    + exists res_evs, out_evs, f, b. rewrite <- app_assoc. cbn [app].
      split; [reflexivity |]. split; [assumption |]. split; [assumption |].
      split; [intros content Hf; destruct (Hrit content Hf) as (rs & ? & _); eauto |].
      split; [intros x w1 [=] | exact Hframe].
    + exists res_evs, (out_evs ++ [EvPrint ("Error: " +:+ err_msg e)])%list, f, b.
      unfold print, log, emit. cbn [trace fs pubchempy].
      rewrite <- ?app_assoc. cbn [app]. rewrite <- ?app_assoc. cbn [app].
      split; [reflexivity |]. split; [assumption |].
      split; [apply Forall_app; split; [assumption | repeat constructor] |].
      split; [intros content Hf; destruct (Hrit content Hf) as (rs & ? & _); eauto |].
      split; [intros x w1 [=] | exact Hframe].
  - exists res_evs, [EvPrint ("Error: " +:+ err_msg e)], (fs w), b.
    unfold print, log, emit. cbn [trace fs pubchempy].
    rewrite <- !app_assoc. cbn [app].
    split; [reflexivity |]. split; [assumption |]. split; [repeat constructor |].
    split; [intros content Hf; destruct (Hrit content Hf) as (rs & ? & _); eauto |].
    split; [| exact Hsame].
    intros x w1 _. split; [reflexivity | repeat constructor].
Qed.




(** C10. In batch mode every event up to the end of the resolutions
    leaves the output file alone, and nothing is resolved afterwards: the
    output file is opened only once the queries the input delivered have
    been resolved in turn.  When reading the input or the loop of
    resolutions raises, the program still returns normally, the files are
    exactly as they were, and no file is opened for writing. *)
Theorem batch_output_opened_after_resolution env args path w :
  given (input args) = Some path ->
  batch args = true ->
  exists res_evs out_evs w',
    main env args w = (Ok tt, w') /\
    trace w' = (trace w ++ EvOpenR path :: res_evs ++ out_evs)%list /\
    Forall (fun ev => is_file_output ev = false) res_evs /\
    Forall (fun ev => is_resolution ev = false) out_evs /\
    (forall content, fs w !! path = Some (Text content) ->
       exists rs w1,
         resolved_in_turn env (emit (EvOpenR path) w)
           (query_names (delivered_lines env path content)) rs w1 /\
         trace w1 = (trace w ++ EvOpenR path :: res_evs)%list) /\
    (forall x w1, batch_collect env path w = (Raise x, w1) ->
       fs w' = fs w /\ Forall (fun ev => is_file_output ev = false) out_evs).
Proof.
  intros Hin Hbatch.
  destruct (batch_mode_effect env path (output args) w)
    as (res_evs & out_evs & f & b & Hrun & Hres & Hout & Hturn & Hraise & _).
  exists res_evs, out_evs. eexists. unfold main. rewrite Hin, Hbatch.
  split; [exact Hrun |]. cbn [trace fs]. split; [reflexivity |].
  split; [eapply Forall_impl; [exact Hres |]; intros [] ?; cbn in *; tauto |].
  split; [eapply Forall_impl; [exact Hout |]; intros [] ?; cbn in *; tauto |].
  split; [| exact Hraise].
  intros content Hfile. destruct (Hturn content Hfile) as (rs & Hrs).
  eexists rs, _. split; [exact Hrs | reflexivity].
Qed.

Lemma batch_output_opened_after_resolution_witness :
  let args := mk_args (Some "missing.txt") (Some "old.txt") None true in
  given (input args) = Some "missing.txt" /\
  batch args = true /\
  exists w',
    main Lab.env args Lab.world = (Ok tt, w') /\
    fs w' = fs Lab.world /\
    fs w' !! "old.txt" = Some (Text "previous content").
Proof.
  intros args. split; [reflexivity |]. split; [reflexivity |].
  destruct (batch_output_opened_after_resolution Lab.env args "missing.txt" Lab.world
              eq_refl eq_refl)
    as (res_evs & out_evs & w' & Hrun & _ & _ & _ & _ & Hraise).
  exists w'. split; [exact Hrun |].
  destruct (Hraise (Exc (mk_error OSError
                      "[Errno 2] No such file or directory: 'missing.txt'"))
                   (emit (EvOpenR "missing.txt") Lab.world) eq_refl) as (Hfs & _).
  split; [exact Hfs |]. rewrite Hfs. reflexivity.
Defined.

(** ** Interactive mode *)

(** The loop over the standard input resolves and prints; it ends
    normally at the end of the stream and with [KeyboardInterrupt] at an
    interrupt. *)
Lemma interactive_loop_effect env lines closes w :
  exists evs b,
    interactive_loop env lines closes w
    = (match closes with
       | EOF => Ok tt
       | Interrupt => Raise KeyboardInterrupt
       | Broken e => Raise (Exc e)
       end, {| trace := trace w ++ evs; fs := fs w; pubchempy := b |})
    /\ Forall is_resolver_event evs.
Proof.
  revert w. induction lines as [| line rest IH]; intros w.
  - exists [], (pubchempy w). rewrite app_nil_r, world_eta.
    split; [destruct closes; reflexivity | constructor].
  - cbn [interactive_loop]. destruct (String.eqb (strip line) ""); [apply IH |].
    destruct (name_to_smiles_effect env (strip line) w) as (r & evs & b & Heq & Hev).
    unfold bind at 1. rewrite Heq. unfold bind, print, log, emit.
    cbn [trace fs pubchempy].
    match goal with
    | |- context [interactive_loop env rest closes ?w1] =>
        destruct (IH w1) as (evs' & b' & Heq' & Hev'); rewrite Heq'
    end.
    cbn [trace fs pubchempy]. rewrite <- !app_assoc.
    eexists _, _. split; [reflexivity |].
    apply Forall_app. split; [assumption |]. constructor; [exact I | assumption].
Qed.

(** Interactive mode returns normally, interrupt or not, unless reading
    the standard input fails. *)
Lemma interactive_mode_effect env w :
  exists evs b,
    interactive_mode env w
    = (match stdin_closes env with
       | Broken e => Raise (Exc e)
       | _ => Ok tt
       end, {| trace := trace w ++ evs; fs := fs w; pubchempy := b |})
    /\ Forall is_resolver_event evs.
Proof.
  unfold interactive_mode, try_except_interrupt, bind, print, log.
  match goal with
  | |- context [interactive_loop env ?l ?c ?w1] =>
      destruct (interactive_loop_effect env l c w1) as (evs & b & Heq & Hev); rewrite Heq
  end.
  unfold emit. cbn [trace fs pubchempy]. rewrite <- app_assoc.
  eexists _, _. split; [destruct (stdin_closes env); reflexivity |].
  constructor; [exact I | assumption].
Qed.

(** ** Single mode *)

Lemma given_Some o s : given o = Some s -> o = Some s /\ s <> "" /\ truthy o = true.
Proof.
  destruct o as [s' |]; cbn; [| discriminate].
  destruct (String.eqb_spec s' ""); [discriminate |].
  intros [= ->]. auto.
Qed.

(** The helper behind C2, for the proofs about [main]. *)
Lemma name_to_smiles_accepted env s m w :
  MolFromSmiles env s = Returned (Some m) ->
  name_to_smiles env s w = (Ok (Some s), emit (EvParse s) w).
Proof.
  intros Hm. unfold name_to_smiles, call_MolFromSmiles, try_except, bind, log, lift, ret.
  rewrite Hm. reflexivity.
Qed.

(** The report of single mode to a file that can be written. *)
Lemma single_report_file env args_output out smiles w :
  given args_output = Some out ->
  writable env out ->
  single_report env args_output smiles w
  = (Ok tt,
     {| trace := trace w ++ [EvOpenW out; EvWrite out (py_str smiles +:+ LF);
                             EvClose out; EvPrint ("SMILES written to " +:+ out)];
        fs := <[out := Text (py_str smiles +:+ LF)]> (fs w);
        pubchempy := pubchempy w |}).
Proof.
  intros Hout (Hopen & Hwrite & Hclose). unfold single_report. rewrite Hout.
  unfold with_open_w, open_w, write, close_w, store, print, log, lift_unit, bind, ret.
  rewrite Hopen, Hwrite. cbn. rewrite Hclose.
  unfold emit, set_fs. cbn [trace fs pubchempy].
  rewrite fs_lookup_insert_eq, fs_insert_insert, <- !app_assoc. reflexivity.
Qed.

(** The report of single mode to a file that cannot be opened: the
    exception of [open] leaves [single_report]. *)
Lemma single_report_denied env args_output out e smiles w :
  given args_output = Some out ->
  open_w_fails env out = Some e ->
  single_report env args_output smiles w = (Raise (Exc e), emit (EvOpenW out) w).
Proof.
  intros Hout Hopen. unfold single_report. rewrite Hout.
  unfold with_open_w, open_w, log, lift_unit, bind, raise. rewrite Hopen. reflexivity.
Qed.

Lemma single_report_stdout env args_output smiles w :
  given args_output = None ->
  single_report env args_output smiles w = (Ok tt, emit (EvPrint (py_str smiles)) w).
Proof. intros Hout. unfold single_report. rewrite Hout. reflexivity. Qed.

(** Whatever happens to the output file, [single_report] prints and
    works on that file only. *)
Lemma single_report_effect env args_output smiles w :
  exists r evs f,
    single_report env args_output smiles w
    = (r, {| trace := trace w ++ evs; fs := f; pubchempy := pubchempy w |})
    /\ Forall is_report_event evs
    /\ r <> Raise KeyboardInterrupt
    /\ match given args_output with
       | Some out => touches_only out (fs w) f
       | None => f = fs w
       end.
Proof.
  destruct (given args_output) as [out |] eqn:Hout.
  - unfold single_report. rewrite Hout.
    apply (reports_to_bind out _ (fun _ => print ("SMILES written to " +:+ out))).
    + apply reports_to_with_open, reports_to_write.
    + intros _. apply reports_to_print.
  - rewrite single_report_stdout by assumption.
    exists (Ok tt), [EvPrint (py_str smiles)], (fs w).
    split; [reflexivity |]. split; [repeat constructor |]. split; [discriminate | reflexivity].
Qed.

(** The Renderer returns normally and changes no file but the one at its
    path. *)
Lemma save_molecule_image_effect env smiles path w :
  exists w',
    save_molecule_image env smiles path w = (Ok tt, w') /\
    touches_only path (fs w) (fs w').
Proof.
  unfold_calls. repeat (cbn; case_split); cbn;
    (eexists; split; [reflexivity |]; cbn;
     first [apply touches_only_refl | apply touches_only_insert]).
Qed.

Lemma no_draw_among_resolver_events evs :
  Forall is_resolver_event evs -> List.filter is_draw evs = [].
Proof.
  induction 1 as [| ev evs Hev _ IH]; [reflexivity |].
  destruct ev; cbn in *; solve [assumption | contradiction].
Qed.

Lemma no_draw_among_report_events evs :
  Forall is_report_event evs -> List.filter is_draw evs = [].
Proof.
  induction 1 as [| ev evs Hev _ IH]; [reflexivity |].
  destruct ev; cbn in *; solve [assumption | contradiction].
Qed.

(** [single_report] draws nothing. *)
Lemma single_report_draws env args_output smiles w :
  List.filter is_draw (trace (snd (single_report env args_output smiles w)))
  = List.filter is_draw (trace w).
Proof.
  destruct (single_report_effect env args_output smiles w)
    as (r & evs & f & Heq & Hev & _).
  rewrite Heq. cbn. rewrite List.filter_app, (no_draw_among_report_events evs Hev).
  apply app_nil_r.
Qed.

Lemma draws_app w evs b f :
  draws {| trace := trace w ++ evs; fs := f; pubchempy := b |}
  = (draws w ++ List.filter is_draw evs)%list.
Proof. unfold draws. cbn. apply List.filter_app. Qed.

(** Interactive mode, batch mode, and single mode without a truthy image
    path never call the depiction routine. *)
Lemma main_draws_nothing env args w :
  given (input args) = None \/ batch args = true \/ given (image args) = None ->
  draws (snd (main env args w)) = draws w.
Proof.
  intros Hmode. unfold main.
  destruct (given (input args)) as [inp |] eqn:Hin.
  - destruct (batch args) eqn:Hb.
    + destruct (batch_mode_effect env inp (output args) w)
        as (res_evs & out_evs & f & b & Hrun & Hres & Hout & _).
      rewrite Hrun. cbn [snd].
      change (EvOpenR inp :: res_evs ++ out_evs)%list
        with ([EvOpenR inp] ++ res_evs ++ out_evs)%list.
      rewrite draws_app, !List.filter_app, (no_draw_among_resolver_events res_evs),
        (no_draw_among_report_events out_evs) by assumption.
      cbn. apply app_nil_r.
    + destruct Hmode as [? | [? | Himg]]; [discriminate | discriminate |].
      unfold single_mode, bind.
      destruct (name_to_smiles_effect env inp w) as (r & evs & b & Heq & Hev).
      rewrite Heq, Himg.
      assert (Hw1 : draws {| trace := trace w ++ evs; fs := fs w; pubchempy := b |}
                    = draws w).
      { rewrite draws_app, no_draw_among_resolver_events by assumption.
        apply app_nil_r. }
      destruct (truthy r).
      * rewrite <- Hw1.
        match goal with
        | |- context [single_report env ?o ?s ?w1] =>
            pose proof (single_report_draws env o s w1) as Hd;
            destruct (single_report env o s w1) as [[[] | x] w2]
        end; exact Hd.
      * rewrite <- Hw1. unfold print, log. cbn [snd].
        unfold emit. rewrite draws_app. cbn. apply app_nil_r.
  - destruct (interactive_mode_effect env w) as (evs & b & Heq & Hev).
    rewrite Heq. cbn [snd].
    rewrite draws_app, no_draw_among_resolver_events by assumption.
    apply app_nil_r.
Qed.

(** X20. In single mode, for an input the validator accepts and a truthy
    image path, the program calls the depiction routine exactly once,
    for the molecule of the input and at 400 by 400, and returns
    normally, when no output path is given or the output file can be
    opened, written and closed.  In interactive mode, in batch mode, and
    without a truthy image path, the depiction routine is never called. *)
Theorem render_once_when_output_written env args w :
  (forall s m img,
     given (input args) = Some s ->
     batch args = false ->
     MolFromSmiles env s = Returned (Some m) ->
     given (image args) = Some img ->
     (forall out, given (output args) = Some out -> writable env out) ->
     exists w',
       main env args w = (Ok tt, w') /\
       draws w' = (draws w ++ [EvDraw m 400 400])%list) /\
  (given (input args) = None \/ batch args = true \/ given (image args) = None ->
   draws (snd (main env args w)) = draws w).
Proof.
  split; [| apply main_draws_nothing].
  intros s m img Hin Hb Hm Himg Hopen.
  unfold main. rewrite Hin, Hb. unfold single_mode, bind.
  rewrite (name_to_smiles_accepted env s m w Hm).
  destruct (given_Some _ _ Hin) as (_ & Hs & _).
  assert (Htruthy : truthy (Some s) = true).
  { cbn. destruct (String.eqb_spec s ""); [contradiction | reflexivity]. }
  rewrite Htruthy, Himg. cbn [py_str].
  assert (Hreport : exists w2,
            single_report env (output args) (Some s) (emit (EvParse s) w) = (Ok tt, w2)
            /\ draws w2 = draws w).
  { pose proof (single_report_draws env (output args) (Some s) (emit (EvParse s) w)) as Hd.
    destruct (given (output args)) as [out |] eqn:Hout.
    - rewrite (single_report_file env (output args) out) in * by auto.
      eexists. split; [reflexivity |]. unfold draws. cbn [snd] in Hd. rewrite Hd.
      cbn. rewrite List.filter_app. cbn. apply app_nil_r.
    - rewrite single_report_stdout in * by assumption.
      eexists. split; [reflexivity |]. unfold draws. cbn [snd] in Hd. rewrite Hd.
      cbn. rewrite List.filter_app. cbn. apply app_nil_r. }
  destruct Hreport as (w2 & Hrep & Hd2). rewrite Hrep.
  destruct (save_molecule_image_effect env s img w2) as (w3 & Hsave & _).
  pose proof (save_molecule_image_draws env s img w2) as Hd3.
  rewrite Hsave, Hm in Hd3. cbn [snd] in Hd3.
  exists w3. split; [exact Hsave |]. unfold draws in *. rewrite Hd3, Hd2. reflexivity.
Qed.

Lemma render_once_when_output_written_witness :
  let args := mk_args (Some "CCO") (Some "old.txt") (Some "ethanol.png") false in
  given (input args) = Some "CCO" /\
  batch args = false /\
  MolFromSmiles Lab.env "CCO" = Returned (Some (MolObj "CCO")) /\
  given (image args) = Some "ethanol.png" /\
  (forall out, given (output args) = Some out -> writable Lab.env out) /\
  exists w',
    main Lab.env args Lab.world = (Ok tt, w') /\
    draws w' = (draws Lab.world ++ [EvDraw (MolObj "CCO") 400 400])%list.
Proof.
  intros args.
  assert (Hopen : forall out, given (output args) = Some out -> writable Lab.env out).
  { intros out [= <-]. split; [reflexivity |]. split; [intros; reflexivity | reflexivity]. }
  split; [reflexivity |]. split; [reflexivity |]. split; [reflexivity |].
  split; [reflexivity |]. split; [exact Hopen |].
  exact (proj1 (render_once_when_output_written Lab.env args Lab.world)
           "CCO" (MolObj "CCO") "ethanol.png" eq_refl eq_refl eq_refl eq_refl Hopen).
Defined.

(** C7. In single mode with an input the validator accepts and an image
    path, the render is lost when the output file fails: with an output
    path that cannot be opened, [open] raises at line 139, and with one
    whose closing flush fails, the end of the [with] block raises at
    line 140; either way the exception leaves [main] before line 145 is
    reached, nothing is drawn and no image file exists afterwards.  The
    same input without [-o] is drawn once. *)
Theorem render_lost_when_output_fails :
  let denied := main Lab.env
                  (mk_args (Some "CCO") (Some "/proc/out.txt") (Some "ethanol.png") false)
                  Lab.world in
  let full := main Lab.env
                (mk_args (Some "CCO") (Some "/dev/full") (Some "ethanol.png") false)
                Lab.world in
  let plain := main Lab.env (mk_args (Some "CCO") None (Some "ethanol.png") false)
                 Lab.world in
  MolFromSmiles Lab.env "CCO" = Returned (Some (MolObj "CCO")) /\
  fst denied
  = Raise (Exc (mk_error OSError "[Errno 13] Permission denied: '/proc/out.txt'")) /\
  draws (snd denied) = [] /\
  fs (snd denied) !! "ethanol.png" = None /\
  fst full = Raise (Exc (mk_error OSError "[Errno 28] No space left on device")) /\
  draws (snd full) = [] /\
  fs (snd full) !! "ethanol.png" = None /\
  fst plain = Ok tt /\
  draws (snd plain) = [EvDraw (MolObj "CCO") 400 400].
Proof.
  cbv zeta. split; [reflexivity |]. split; [reflexivity |]. split; [reflexivity |].
  split; [vm_compute; reflexivity |]. split; [reflexivity |]. split; [reflexivity |].
  split; [vm_compute; reflexivity |]. split; reflexivity.
Qed.

(** C8. In single mode with an output path that can be opened, written
    and closed, when the Resolver returns a non-empty structure the
    output file holds exactly that structure and a line feed when the
    program ends, whatever it held before, provided the image path does
    not name the same file.  In batch mode with an output path that can
    be opened, written and closed, once the queries are read and
    resolved the output file holds exactly their records, whatever it
    held before. *)
Theorem output_file_overwritten env args w :
  (forall s out t w1,
     given (input args) = Some s ->
     batch args = false ->
     given (output args) = Some out ->
     writable env out ->
     name_to_smiles env s w = (Ok (Some t), w1) ->
     t <> "" ->
     (forall img, given (image args) = Some img -> ~ same_file (fs w) img out) ->
     exists w',
       main env args w = (Ok tt, w') /\
       fs w' !! out = Some (Text (t +:+ LF))) /\
  (forall path out results w1,
     given (input args) = Some path ->
     batch args = true ->
     given (output args) = Some out ->
     writable env out ->
     batch_collect env path w = (Ok results, w1) ->
     exists w',
       main env args w = (Ok tt, w') /\
       fs w' !! out
       = Some (Text (join (map (fun p => record (fst p) (snd p)) results)))).
Proof.
  split.
  - intros s out t w1 Hin Hb Hout Hopen Hres Ht Himg.
    unfold main. rewrite Hin, Hb. unfold single_mode, bind. rewrite Hres.
    assert (Htruthy : truthy (Some t) = true).
    { cbn. destruct (String.eqb_spec t ""); [contradiction | reflexivity]. }
    rewrite Htruthy, (single_report_file env (output args) out) by assumption.
    cbn [py_str].
    destruct (name_to_smiles_effect env s w) as (r & evs & b & Heq & _).
    rewrite Heq in Hres. injection Hres as _ <-. cbn [fs].
    destruct (given (image args)) as [img |] eqn:Hi.
    + match goal with
      | |- context [save_molecule_image env t img ?w2] =>
          destruct (save_molecule_image_effect env t img w2) as (w3 & Hsave & Hfs)
      end.
      exists w3. split; [exact Hsave |].
      rewrite (touches_only_lookup _ _ _ _ Hfs); [apply fs_lookup_insert_eq |].
      exact (Himg img eq_refl).
    + eexists. split; [reflexivity |]. apply fs_lookup_insert_eq.
  - intros path out results w1 Hin Hb Hout Hopen Hcollect.
    unfold main. rewrite Hin, Hb. unfold batch_mode, try_except, bind.
    rewrite Hcollect, (batch_report_file env (output args) out) by assumption.
    eexists. split; [reflexivity |]. apply fs_lookup_insert_eq.
Qed.

Lemma output_file_overwritten_witness :
  let args := mk_args (Some "water") (Some "./old.txt") (Some "water.png") false in
  fs Lab.world !! "old.txt" = Some (Text "previous content") /\
  given (input args) = Some "water" /\
  batch args = false /\
  given (output args) = Some "./old.txt" /\
  writable Lab.env "./old.txt" /\
  fst (name_to_smiles Lab.env "water" Lab.world) = Ok (Some "O") /\
  "O" <> "" /\
  (forall img, given (image args) = Some img ->
     ~ same_file (fs Lab.world) img "./old.txt") /\
  (exists w',
     main Lab.env args Lab.world = (Ok tt, w') /\
     fs w' !! "./old.txt" = Some (Text ("O" +:+ LF))) /\
  fs (snd (main Lab.env args Lab.world)) !! "old.txt" = Some (Text ("O" +:+ LF)).
Proof.
  intros args.
  assert (Hw : writable Lab.env "./old.txt")
    by (split; [reflexivity |]; split; [intros; reflexivity | reflexivity]).
  assert (Himg : forall img, given (image args) = Some img ->
                             ~ same_file (fs Lab.world) img "./old.txt")
    by (intros img [= <-]; discriminate).
  split; [reflexivity |]. split; [reflexivity |]. split; [reflexivity |].
  split; [reflexivity |]. split; [exact Hw |]. split; [reflexivity |].
  split; [discriminate |]. split; [exact Himg |].
  split; [| vm_compute; reflexivity].
  refine (proj1 (output_file_overwritten Lab.env args Lab.world)
            "water" "./old.txt" "O" _ eq_refl eq_refl eq_refl Hw eq_refl _ Himg).
  discriminate.
Defined.

(** C8 as it was stated fails when the image goes to the file of the
    output, under the same path or another path of that file: the
    resolution succeeds, line 140 writes the structure, and line 73 then
    replaces the file by the picture.  It also fails when the output
    cannot be kept: a path that cannot be opened holds nothing
    afterwards, and a device that fails at the closing flush holds no
    structure. *)
Lemma output_file_replaced_or_lost :
  let picture := Some (Picture (mk_image (MolObj "CCO") 400 400)) in
  let run out img := main Lab.env (mk_args (Some "CCO") (Some out) img false) Lab.world in
  fst (name_to_smiles Lab.env "CCO" Lab.world) = Ok (Some "CCO") /\
  fst (run "ethanol.png" (Some "ethanol.png")) = Ok tt /\
  fs (snd (run "ethanol.png" (Some "ethanol.png"))) !! "ethanol.png" = picture /\
  fst (run "ethanol.png" (Some "./ethanol.png")) = Ok tt /\
  fs (snd (run "ethanol.png" (Some "./ethanol.png"))) !! "ethanol.png" = picture /\
  fs (snd (run "/proc/out.txt" None)) !! "/proc/out.txt" = None /\
  fs (snd (run "/dev/full" None)) !! "/dev/full" = Some (Text "").
Proof.
  cbv zeta. split; [reflexivity |]. split; [reflexivity |].
  split; [vm_compute; reflexivity |]. split; [reflexivity |].
  split; [vm_compute; reflexivity |]. split; vm_compute; reflexivity.
Qed.

(** ** Mode selection *)

(** C9. [main] selects its mode by the truth value of the positional
    argument: it runs the mode [select_mode] names; with the empty string
    as argument it does what it does without the argument, namely run
    interactive mode; and batch mode and single mode are entered only
    with a non-empty value, which is the argument. *)
Theorem empty_input_selects_interactive_mode env args w :
  main env args w = run_mode env args (select_mode args) w /\
  main env (mk_args (Some "") (output args) (image args) (batch args)) w
  = main env (mk_args None (output args) (image args) (batch args)) w /\
  main env (mk_args (Some "") (output args) (image args) (batch args)) w
  = interactive_mode env w /\
  (forall path, select_mode args = Batch path -> path <> "" /\ input args = Some path) /\
  (forall value, select_mode args = Single value ->
     value <> "" /\ input args = Some value).
Proof.
  split; [| split; [reflexivity | split; [reflexivity |]]].
  - unfold main, select_mode, given.
    destruct (input args) as [[| c v] |]; cbn; try reflexivity.
    destruct (batch args); reflexivity.
  - unfold select_mode.
    split; intros v Hv; destruct (input args) as [[| c v'] |]; try discriminate;
      destruct (batch args); try discriminate; injection Hv as <-; split;
      [discriminate | reflexivity | discriminate | reflexivity].
Qed.

(** ** Errors at the process boundary *)

(** In single mode nothing catches the exception of
    [open(args.output, 'w')]. *)
Lemma single_mode_open_error_uncaught env args s m out e w :
  given (input args) = Some s ->
  batch args = false ->
  MolFromSmiles env s = Returned (Some m) ->
  given (output args) = Some out ->
  open_w_fails env out = Some e ->
  main env args w = (Raise (Exc e), emit (EvOpenW out) (emit (EvParse s) w)).
Proof.
  intros Hin Hb Hm Hout Hopen. unfold main. rewrite Hin, Hb.
  unfold single_mode, bind. rewrite (name_to_smiles_accepted env s m w Hm).
  destruct (given_Some _ _ Hin) as (_ & Hs & _).
  assert (Htruthy : truthy (Some s) = true).
  { cbn. destruct (String.eqb_spec s ""); [contradiction | reflexivity]. }
  rewrite Htruthy, (single_report_denied env _ out e) by assumption. reflexivity.
Qed.

(** C3. In single mode the exception of [open(args.output, 'w')] is not
    caught: with a valid input and an output path that cannot be opened,
    [main] ends by raising the [OSError], after the resolution and with
    nothing printed.  Batch mode catches the same error and prints a
    diagnostic. *)
Theorem single_mode_open_error_propagates :
  let e := mk_error OSError "[Errno 13] Permission denied: '/proc/out.txt'" in
  open_w_fails Lab.env "/proc/out.txt" = Some e /\
  main Lab.env (mk_args (Some "CCO") (Some "/proc/out.txt") None false) Lab.world
  = (Raise (Exc e),
     {| trace := [EvParse "CCO"; EvOpenW "/proc/out.txt"];
        fs := fs Lab.world; pubchempy := true |}) /\
  fst (main Lab.env (mk_args (Some "names.txt") (Some "/proc/out.txt") None true)
         Lab.world) = Ok tt /\
  last (trace (snd (main Lab.env
                      (mk_args (Some "names.txt") (Some "/proc/out.txt") None true)
                      Lab.world)))
  = Some (EvPrint "Error: [Errno 13] Permission denied: '/proc/out.txt'").
Proof.
  cbv zeta. split; [reflexivity |]. split; [reflexivity |].
  split; [reflexivity |]. vm_compute. reflexivity.
Qed.

(** * Further properties of the script *)

(** ** The Resolver, path by path *)

(** X1. A name the validator rejects, looked up with [pubchempy]
    importable, is answered by the first candidate PubChem returns: its
    [canonical_smiles], present or not, is the result, the later
    candidates are not consulted, one query is made, nothing is printed
    and nothing is installed. *)
Theorem first_candidate_is_returned env s c cs w :
  MolFromSmiles env s = Returned None ->
  pubchempy w = true ->
  get_compounds env s = Returned (c :: cs) ->
  name_to_smiles env s w
  = (Ok (canonical_smiles c),
     {| trace := trace w ++ [EvParse s; EvImport; EvLookup s];
        fs := fs w; pubchempy := true |}).
Proof.
  intros Hm Hp Hc. unfold_calls. cbn. rewrite Hm. cbn. rewrite Hp. cbn.
  rewrite Hc. cbn. world_shape. rewrite Hp. reflexivity.
Qed.

Lemma first_candidate_is_returned_witness :
  MolFromSmiles Lab.env "water" = Returned None /\
  pubchempy Lab.world = true /\
  get_compounds Lab.env "water" = Returned [mk_compound 962 (Some "O")] /\
  fst (name_to_smiles Lab.env "water" Lab.world) = Ok (Some "O").
Proof.
  split; [reflexivity |]. split; [reflexivity |]. split; [reflexivity |].
  rewrite (first_candidate_is_returned Lab.env "water" (mk_compound 962 (Some "O")) []
             Lab.world eq_refl eq_refl eq_refl).
  reflexivity.
Defined.

(** X2. When the lookup raises anything but an [ImportError], the
    Resolver returns [None] after printing [PubChem lookup failed: ...]
    with the text of the exception; it does not install anything and
    does not query again. *)
Theorem lookup_failure_is_reported env s e w :
  MolFromSmiles env s = Returned None ->
  pubchempy w = true ->
  get_compounds env s = Failed e ->
  err_class e <> ImportError ->
  name_to_smiles env s w
  = (Ok None,
     {| trace := trace w ++ [EvParse s; EvImport; EvLookup s;
                             EvPrint ("PubChem lookup failed: " +:+ err_msg e)];
        fs := fs w; pubchempy := true |}).
Proof.
  intros Hm Hp Hc He. unfold_calls. cbn. rewrite Hm. cbn. rewrite Hp. cbn.
  rewrite Hc. cbn. destruct (err_class e); [contradiction | |];
    cbn; world_shape; rewrite Hp; reflexivity.
Qed.

Lemma lookup_failure_is_reported_witness :
  let e := mk_error OtherError "HTTP Error 503: Service Unavailable" in
  let env := Lab.machine Lab.rdkit (fun _ => Failed e) (PipDone true) (fun _ => None) [] EOF in
  MolFromSmiles env "water" = Returned None /\
  pubchempy Lab.world = true /\
  get_compounds env "water" = Failed e /\
  err_class e <> ImportError /\
  stdout_of (trace (snd (name_to_smiles env "water" Lab.world)))
  = ["PubChem lookup failed: HTTP Error 503: Service Unavailable"].
Proof.
  intros e env.
  split; [reflexivity |]. split; [reflexivity |]. split; [reflexivity |].
  split; [discriminate |].
  rewrite (lookup_failure_is_reported env "water" e Lab.world
             eq_refl eq_refl eq_refl ltac:(discriminate)).
  reflexivity.
Defined.

(** X3. When the validator itself raises, whatever the class of the
    exception, the Resolver returns [None] after printing [Error
    processing <name>: ...]; PubChem is neither imported nor queried. *)
Theorem validator_failure_is_reported env s e w :
  MolFromSmiles env s = Failed e ->
  name_to_smiles env s w
  = (Ok None,
     emit (EvPrint ("Error processing " +:+ s +:+ ": " +:+ err_msg e))
       (emit (EvParse s) w)).
Proof.
  intros Hm. unfold_calls. cbn. rewrite Hm. reflexivity.
Qed.

Lemma validator_failure_is_reported_witness :
  let e := mk_error ImportError "DLL load failed" in
  let env := Lab.machine (fun _ => Failed e) Lab.pubchem (PipDone true) (fun _ => None) [] EOF in
  MolFromSmiles env "water" = Failed e /\
  trace (snd (name_to_smiles env "water" Lab.bare_world))
  = [EvParse "water"; EvPrint "Error processing water: DLL load failed"].
Proof.
  intros e env. split; [reflexivity |].
  rewrite (validator_failure_is_reported env "water" e Lab.bare_world eq_refl).
  reflexivity.
Defined.

Lemma zero_candidates_reported_witness :
  MolFromSmiles Lab.env "bogusname" = Returned None /\
  pubchempy Lab.world = true /\
  get_compounds Lab.env "bogusname" = Returned [] /\
  exists w',
    name_to_smiles Lab.env "bogusname" Lab.world = (Ok None, w') /\
    trace w' = [EvParse "bogusname"; EvImport; EvLookup "bogusname";
                EvPrint "No compounds found for 'bogusname' in PubChem"].
Proof.
  split; [reflexivity |]. split; [reflexivity |]. split; [reflexivity |].
  exact (zero_candidates_reported Lab.env "bogusname" Lab.world eq_refl eq_refl eq_refl).
Defined.

(** ** The Resolver, on every path *)

Ltac solve_bounds :=
  cbn; repeat split; try lia; try congruence; try reflexivity;
  try (intros n Hn; cbn in Hn; intuition congruence);
  try (repeat constructor).

(** X5. Whatever the collaborators return or raise, one call of
    [name_to_smiles] calls the validator exactly once, on its argument
    and before anything else; it queries PubChem at most twice, only for
    its argument; it runs [pip] at most once; everything else it does is
    printing and importing: it opens no file and draws nothing. *)
Theorem name_to_smiles_bounded_effort env s w :
  exists evs,
    trace (snd (name_to_smiles env s w)) = (trace w ++ EvParse s :: evs)%list /\
    Forall is_resolver_event evs /\
    count_events is_parse evs = 0%nat /\
    (count_events is_install evs <= 1)%nat /\
    (count_events is_lookup evs <= 2)%nat /\
    (forall n, In (EvLookup n) evs -> n = s).
Proof.
  unfold_calls. repeat (cbn; case_split); cbn; world_shape;
    (eexists; split; [reflexivity |]); solve_bounds.
Qed.

(** X6. With [pubchempy] importable and a lookup that does not end in an
    [ImportError], the Resolver never runs [pip]: it queries PubChem at
    most once and the module stays importable. *)
Theorem no_install_when_importable env s w :
  pubchempy w = true ->
  lookup_imports_cleanly env s ->
  exists r evs,
    name_to_smiles env s w
    = (Ok r, {| trace := trace w ++ evs; fs := fs w; pubchempy := true |}) /\
    count_events is_install evs = 0%nat /\
    (count_events is_lookup evs <= 1)%nat.
Proof.
  intros Hp Hclean. unfold_calls. cbn.
  destruct (MolFromSmiles env s) as [[m |] | e]; cbn; rewrite ?Hp; cbn.
  - world_shape. rewrite Hp. eexists _, _. split; [reflexivity |]. solve_bounds.
  - destruct (get_compounds env s) as [[| c cs] | e] eqn:Hc; cbn.
    + world_shape. rewrite Hp. eexists _, _. split; [reflexivity |]. solve_bounds.
    + world_shape. rewrite Hp. eexists _, _. split; [reflexivity |]. solve_bounds.
    + pose proof (Hclean e Hc) as He.
      destruct (err_class e); [contradiction | |]; cbn; world_shape; rewrite Hp;
        (eexists _, _; split; [reflexivity |]); solve_bounds.
  - world_shape. rewrite Hp. eexists _, _. split; [reflexivity |]. solve_bounds.
Qed.

Lemma no_install_when_importable_witness :
  pubchempy Lab.world = true /\
  lookup_imports_cleanly Lab.env "ethanol" /\
  exists r evs,
    name_to_smiles Lab.env "ethanol" Lab.world
    = (Ok r, {| trace := trace Lab.world ++ evs; fs := fs Lab.world;
                pubchempy := true |}) /\
    count_events is_install evs = 0%nat /\
    (count_events is_lookup evs <= 1)%nat.
Proof.
  assert (Hclean : lookup_imports_cleanly Lab.env "ethanol")
    by (intros e He; discriminate He).
  split; [reflexivity |]. split; [exact Hclean |].
  exact (no_install_when_importable Lab.env "ethanol" Lab.world eq_refl Hclean).
Defined.

(** X7. An [ImportError] raised by the lookup itself is taken for a
    missing module, although [pubchempy] was importable: the install
    notice is printed and [pip] is run once. *)
Theorem import_error_in_lookup_triggers_install env s e w :
  MolFromSmiles env s = Returned None ->
  pubchempy w = true ->
  get_compounds env s = Failed e ->
  err_class e = ImportError ->
  exists r evs b,
    name_to_smiles env s w
    = (Ok r, {| trace := trace w ++ evs; fs := fs w; pubchempy := b |}) /\
    count_events is_install evs = 1%nat /\
    In (EvPrint "PubChemPy not installed. Installing it with: pip install pubchempy") evs.
Proof.
  intros Hm Hp Hc He. unfold_calls. cbn. rewrite Hm. cbn. rewrite Hp. cbn.
  rewrite Hc. cbn. rewrite He. cbn.
  destruct (pip_install env) as [e' | [|]]; cbn; rewrite ?Hp, ?Hc; cbn; world_shape;
    (eexists _, _, _; split; [reflexivity |]); cbn; (split; [reflexivity |]);
    auto 10.
Qed.

Lemma import_error_in_lookup_triggers_install_witness :
  let e := mk_error ImportError "No module named 'requests'" in
  let env := Lab.machine Lab.rdkit (fun _ => Failed e) (PipDone true) (fun _ => None) [] EOF in
  MolFromSmiles env "water" = Returned None /\
  pubchempy Lab.world = true /\
  get_compounds env "water" = Failed e /\
  err_class e = ImportError /\
  exists r evs b,
    name_to_smiles env "water" Lab.world
    = (Ok r, {| trace := trace Lab.world ++ evs; fs := fs Lab.world; pubchempy := b |}) /\
    count_events is_install evs = 1%nat /\
    In (EvPrint "PubChemPy not installed. Installing it with: pip install pubchempy") evs.
Proof.
  intros e env.
  split; [reflexivity |]. split; [reflexivity |]. split; [reflexivity |].
  split; [reflexivity |].
  exact (import_error_in_lookup_triggers_install env "water" e Lab.world
           eq_refl eq_refl eq_refl eq_refl).
Defined.

(** ** Installs over a run of resolutions *)

Lemma count_events_app p t1 t2 :
  count_events p (t1 ++ t2) = (count_events p t1 + count_events p t2)%nat.
Proof. unfold count_events. now rewrite List.filter_app, length_app. Qed.

(** When [pip] works, a call installs only what was missing. *)
Lemma name_to_smiles_install_budget env s w :
  pip_install env = PipDone true ->
  lookup_imports_cleanly env s ->
  exists r evs b,
    name_to_smiles env s w
    = (Ok r, {| trace := trace w ++ evs; fs := fs w; pubchempy := b |}) /\
    (count_events is_install evs + missing_modules b
     <= missing_modules (pubchempy w))%nat.
Proof.
  intros Hpip Hclean. unfold_calls. repeat (cbn; case_split); cbn; world_shape;
    try congruence;
    try (exfalso; eapply Hclean; eassumption);
    (eexists _, _, _; split; [reflexivity |]); cbn;
    repeat match goal with
           | H : pubchempy w = _ |- _ => rewrite H
           end; cbn; lia.
Qed.

Lemma resolved_in_turn_install_budget env w names rs w' :
  pip_install env = PipDone true ->
  (forall n, lookup_imports_cleanly env n) ->
  resolved_in_turn env w names rs w' ->
  exists evs,
    trace w' = (trace w ++ evs)%list /\
    (count_events is_install evs + missing_modules (pubchempy w')
     <= missing_modules (pubchempy w))%nat.
Proof.
  intros Hpip Hclean.
  induction 1 as [w | w name r w1 names rs w2 Hrun _ (evs2 & Htr & Hle)].
  - exists []. rewrite app_nil_r. split; [reflexivity |]. cbn. lia.
  - destruct (name_to_smiles_install_budget env name w Hpip (Hclean name))
      as (r' & evs1 & b & Heq & Hle1).
    rewrite Heq in Hrun. injection Hrun as -> <-. cbn in *.
    exists (evs1 ++ evs2)%list. rewrite Htr, app_assoc, count_events_app.
    split; [reflexivity | lia].
Qed.

Lemma no_install_among_report_events evs :
  Forall is_report_event evs -> count_events is_install evs = 0%nat.
Proof.
  unfold count_events.
  induction 1 as [| ev evs Hev _ IH]; [reflexivity |].
  destruct ev; cbn in *; solve [assumption | contradiction].
Qed.

(** X8. In batch mode, when [pip] works and no lookup ends in an
    [ImportError], [pip] is run at most once for the whole file, however
    many names need a lookup: once installed, the module is found by the
    later queries. *)
Theorem batch_installs_at_most_once env args path content w :
  given (input args) = Some path ->
  batch args = true ->
  fs w !! path = Some (Text content) ->
  pip_install env = PipDone true ->
  (forall n, lookup_imports_cleanly env n) ->
  (count_events is_install (trace (snd (main env args w)))
   <= count_events is_install (trace w) + 1)%nat.
Proof.
  intros Hin Hb Hfile Hpip Hclean. unfold main. rewrite Hin, Hb.
  destruct (batch_mode_effect env path (output args) w)
    as (res_evs & out_evs & f & b & Hrun & _ & Hout & Hturn & _).
  rewrite Hrun. cbn [snd trace].
  destruct (Hturn content Hfile) as (rs & Hrs).
  destruct (resolved_in_turn_install_budget _ _ _ _ _ Hpip Hclean Hrs)
    as (evs & Htr & Hle).
  cbn in Htr. rewrite <- app_assoc in Htr. apply app_inv_head in Htr.
  injection Htr as ->.
  change (EvOpenR path :: evs ++ out_evs)%list
    with ([EvOpenR path] ++ evs ++ out_evs)%list.
  rewrite !count_events_app, (no_install_among_report_events out_evs Hout).
  cbn in *. destruct (pubchempy w), b; cbn in *; lia.
Qed.

Lemma batch_installs_at_most_once_witness :
  let args := mk_args (Some "names.txt") None None true in
  given (input args) = Some "names.txt" /\
  batch args = true /\
  pip_install Lab.env = PipDone true /\
  (forall n, lookup_imports_cleanly Lab.env n) /\
  count_events is_lookup (trace (snd (main Lab.env args Lab.bare_world))) = 2%nat /\
  (count_events is_install (trace (snd (main Lab.env args Lab.bare_world)))
   <= count_events is_install (trace Lab.bare_world) + 1)%nat.
Proof.
  intros args.
  assert (Hclean : forall n, lookup_imports_cleanly Lab.env n).
  { intros n e He. cbn [Lab.env Lab.machine get_compounds] in He.
    unfold Lab.pubchem in He.
    repeat match type of He with
           | (if ?c then _ else _) = _ => destruct c
           end; discriminate He. }
  split; [reflexivity |]. split; [reflexivity |]. split; [reflexivity |].
  split; [exact Hclean |]. split; [reflexivity |].
  exact (batch_installs_at_most_once Lab.env args "names.txt"
           ("water" +:+ LF +:+ LF +:+ "  bogusname " +:+ LF) Lab.bare_world
           eq_refl eq_refl eq_refl eq_refl Hclean).
Defined.

(** ** Interactive mode *)

Lemma interactive_loop_answers env lines closes w :
  exists w',
    answered_in_turn env w (query_names lines) w' /\
    interactive_loop env lines closes w
    = (match closes with
       | EOF => Ok tt
       | Interrupt => Raise KeyboardInterrupt
       | Broken e => Raise (Exc e)
       end, w').
Proof.
  revert w. induction lines as [| line rest IH]; intros w.
  - exists w. split; [constructor |]. destruct closes; reflexivity.
  - unfold query_names in *. cbn [interactive_loop map List.filter].
    destruct (String.eqb (strip line) "") eqn:Hblank; cbn [negb]; [apply IH |].
    destruct (name_to_smiles_effect env (strip line) w) as (r & evs & b & Heq & _).
    unfold bind at 1. rewrite Heq. unfold bind, print, log.
    rewrite arrow_line_report.
    match goal with
    | |- context [interactive_loop env rest closes ?w1] =>
        destruct (IH w1) as (w' & Hans & Hloop)
    end.
    exists w'. split; [econstructor; eassumption | exact Hloop].
Qed.

Lemma answered_in_turn_fs env w names w' :
  answered_in_turn env w names w' -> fs w' = fs w.
Proof.
  induction 1 as [w | w name r w1 names w2 Hrun _ IH]; [reflexivity |].
  destruct (name_to_smiles_effect env name w) as (r' & evs & b & Heq & _).
  rewrite Heq in Hrun. injection Hrun as _ <-. exact IH.
Qed.

(** X9. Without a truthy input argument, and on a standard output that
    takes every line, the program prints the prompt, then answers the
    non-blank lines the standard input delivers, in order and stripped,
    printing the line of each one right after resolving it and before
    reading on; it leaves every file as it was, whatever [-o], [-i] and
    [-b] say.  It returns normally when the input ends or is
    interrupted; an error of the read itself is not caught, since the
    handler takes [KeyboardInterrupt] only, and leaves [main] after the
    lines before it were answered. *)
Theorem interactive_mode_answers_in_turn env args w :
  given (input args) = None ->
  exists w',
    main env args w
    = (match stdin_closes env with
       | Broken e => Raise (Exc e)
       | _ => Ok tt
       end, w') /\
    answered_in_turn env
      (emit (EvPrint "Enter chemical names (Ctrl+D or Ctrl+Z to exit):") w)
      (query_names (stdin_lines env)) w' /\
    fs w' = fs w.
Proof.
  intros Hin. unfold main. rewrite Hin.
  unfold interactive_mode, try_except_interrupt, bind, print, log.
  match goal with
  | |- context [interactive_loop env ?l ?c ?w1] =>
      destruct (interactive_loop_answers env l c w1) as (w' & Hans & Hloop)
  end.
  rewrite Hloop. exists w'.
  split; [destruct (stdin_closes env); reflexivity |].
  split; [exact Hans |]. apply (answered_in_turn_fs _ _ _ _ Hans).
Qed.

Lemma interactive_mode_answers_in_turn_witness :
  let undecodable := mk_error OtherError
    "'utf-8' codec can't decode byte 0xff in position 0: invalid start byte" in
  let env := Lab.machine Lab.rdkit Lab.pubchem (PipDone true) (fun _ => None)
               [Lab.NBSP +:+ " water " +:+ LF; Lab.EM_SPACE +:+ LF; "CCO"]
               (Broken undecodable) in
  let args := mk_args (Some "") (Some "old.txt") (Some "water.png") true in
  given (input args) = None /\
  query_names (stdin_lines env) = ["water"; "CCO"] /\
  exists w',
    main env args Lab.world = (Raise (Exc undecodable), w') /\
    stdout_of (trace w')
    = ["Enter chemical names (Ctrl+D or Ctrl+Z to exit):"; "water → O"; "CCO → CCO"] /\
    fs w' = fs Lab.world.
Proof.
  intros undecodable env args. split; [reflexivity |]. split; [reflexivity |].
  destruct (interactive_mode_answers_in_turn env args Lab.world eq_refl)
    as (w' & Hrun & _ & Hfs).
  exists w'. split; [exact Hrun |]. split; [| exact Hfs].
  change w' with (snd (Raise (A := unit) (Exc undecodable), w')).
  cbn [stdin_closes env Lab.machine] in Hrun. rewrite <- Hrun. reflexivity.
Defined.

(** X10. A keyboard interrupt at the prompt ends the program exactly as
    the end of the input does: same result, same output, same files. *)
Theorem interrupt_ends_like_end_of_input
    parse lookup pip draw_fails save_fails' open_fails write_fails' close_fails' fault
    missing undecodable lines args w :
  main (mk_env parse lookup pip draw_fails save_fails' open_fails write_fails'
          close_fails' fault missing undecodable lines Interrupt) args w
  = main (mk_env parse lookup pip draw_fails save_fails' open_fails write_fails'
            close_fails' fault missing undecodable lines EOF) args w.
Proof.
  unfold main. destruct (given (input args)) as [inp |]; [reflexivity |].
  unfold interactive_mode, try_except_interrupt, bind, print, log.
  cbn [stdin_lines stdin_closes].
  set (envI := mk_env _ _ _ _ _ _ _ _ _ _ _ _ Interrupt).
  set (envE := mk_env _ _ _ _ _ _ _ _ _ _ _ _ EOF).
  match goal with
  | |- context [interactive_loop envI lines Interrupt ?w1] =>
      destruct (interactive_loop_answers envI lines Interrupt w1) as (wI & HansI & HI);
      destruct (interactive_loop_answers envE lines EOF w1) as (wE & HansE & HE)
  end.
  rewrite HI, HE. f_equal.
  clear HI HE. revert HansE.
  induction HansI as [w0 | w0 name r w1 names w2 Hrun _ IH]; intros HansE.
  - inversion HansE. reflexivity.
  - inversion HansE as [| ? ? r' w1' ? ? Hrun' Hrest]; subst.
    change (name_to_smiles envE name w0) with (name_to_smiles envI name w0) in Hrun'.
    rewrite Hrun in Hrun'. injection Hrun' as <- <-. apply IH, Hrest.
Qed.

(** ** What [main] leaves alone *)

(** X11. Of the files a path of the user can name, [main] changes only
    the file behind a truthy [-o] and, in single mode, the file behind a
    truthy [-i], under whatever name they are reached: every path that
    names another file, the input file of a batch included, holds
    afterwards what it held before, also when a write, the closing flush
    or the saving of the image fails half way; batch mode never writes
    to the image path.  What [pip] adds to the Python installation lies
    outside this store. *)
Theorem main_writes_only_named_files env args w p :
  (forall out, given (output args) = Some out -> ~ same_file (fs w) out p) ->
  batch args = true \/
  (forall img, given (image args) = Some img -> ~ same_file (fs w) img p) ->
  fs (snd (main env args w)) !! p = fs w !! p.
Proof.
  intros Hout Himg. unfold main.
  destruct (given (input args)) as [inp |] eqn:Hin.
  - destruct (batch args) eqn:Hb.
    + destruct (batch_mode_effect env inp (output args) w)
        as (res_evs & out_evs & f & b & Heq & _ & _ & _ & _ & Hframe).
      rewrite Heq. cbn [snd fs].
      destruct (given (output args)) as [out |]; [| now subst f].
      apply (touches_only_lookup out _ _ _ Hframe), Hout. reflexivity.
    + destruct Himg as [? | Himg]; [discriminate |].
      unfold single_mode, bind.
      destruct (name_to_smiles_effect env inp w) as (r & evs & b & Heq & _).
      rewrite Heq. destruct (truthy r); [| reflexivity].
      destruct (single_report_effect env (output args) r
                  {| trace := trace w ++ evs; fs := fs w; pubchempy := b |})
        as (r2 & evs2 & f & Hr & _ & _ & Hframe).
      rewrite Hr. cbn [trace fs pubchempy] in Hframe.
      assert (Hf : f !! p = fs w !! p /\ canon f = canon (fs w)).
      { destruct (given (output args)) as [out |]; [| now subst f].
        split; [| apply Hframe].
        apply (touches_only_lookup out _ _ _ Hframe), Hout. reflexivity. }
      destruct Hf as [Hf Hcanon].
      destruct r2 as [[] | x]; [| exact Hf].
      destruct (given (image args)) as [img |] eqn:Hi; [| exact Hf].
      match goal with
      | |- context [save_molecule_image env ?t img ?w2] =>
          destruct (save_molecule_image_effect env t img w2) as (w3 & Hs & Hfs)
      end.
      rewrite Hs. cbn [snd]. cbn [fs] in Hfs.
      rewrite (touches_only_lookup img _ _ p Hfs); [exact Hf |].
      unfold same_file. rewrite Hcanon. apply (Himg img eq_refl).
  - destruct (interactive_mode_effect env w) as (evs & b & Heq & _).
    rewrite Heq. reflexivity.
Qed.

Lemma main_writes_only_named_files_witness :
  let env := Lab.env in
  let args := mk_args (Some "CCO") (Some "/dev/full") (Some "./ethanol.png") false in
  (forall out, given (output args) = Some out -> ~ same_file (fs Lab.world) out "old.txt") /\
  (forall img, given (image args) = Some img -> ~ same_file (fs Lab.world) img "old.txt") /\
  fs (snd (main env args Lab.world)) !! "old.txt" = Some (Text "previous content").
Proof.
  intros env args.
  assert (Hout : forall out, given (output args) = Some out ->
                   ~ same_file (fs Lab.world) out "old.txt")
    by (intros out [= <-]; discriminate).
  assert (Himg : forall img, given (image args) = Some img ->
                   ~ same_file (fs Lab.world) img "old.txt")
    by (intros img [= <-]; discriminate).
  split; [exact Hout |]. split; [exact Himg |].
  rewrite (main_writes_only_named_files env args Lab.world "old.txt" Hout
             (or_intror Himg)).
  reflexivity.
Defined.

(** X12. In single mode, when the Resolver returns [None] or the empty
    string, the program prints [Could not convert: <input>] as its last
    line and returns normally; before that it did the Resolver's work
    and nothing else: no file is opened or changed and nothing is
    drawn, whatever [-o] and [-i] say. *)
Theorem single_mode_failed_conversion env args s w :
  given (input args) = Some s ->
  batch args = false ->
  truthy (match fst (name_to_smiles env s w) with
          | Ok r => r
          | Raise _ => None
          end) = false ->
  exists evs w',
    main env args w = (Ok tt, w') /\
    trace w' = (trace w ++ evs ++ [EvPrint ("Could not convert: " +:+ s)])%list /\
    Forall is_resolver_event evs /\
    fs w' = fs w.
Proof.
  intros Hin Hb Hfalsy. unfold main. rewrite Hin, Hb. unfold single_mode, bind.
  destruct (name_to_smiles_effect env s w) as (r & evs & b & Heq & Hev).
  rewrite Heq in *. cbn [fst] in Hfalsy. rewrite Hfalsy.
  eexists evs, _. split; [reflexivity |]. cbn. rewrite <- app_assoc. auto.
Qed.

Lemma single_mode_failed_conversion_witness :
  let args := mk_args (Some "hollow") (Some "old.txt") (Some "hollow.png") false in
  given (input args) = Some "hollow" /\
  batch args = false /\
  fst (name_to_smiles Lab.env "hollow" Lab.world) = Ok (Some "") /\
  exists w',
    main Lab.env args Lab.world = (Ok tt, w') /\
    stdout_of (trace w') = ["Could not convert: hollow"] /\
    fs w' = fs Lab.world.
Proof.
  intros args. split; [reflexivity |]. split; [reflexivity |]. split; [reflexivity |].
  destruct (single_mode_failed_conversion Lab.env args "hollow" Lab.world
              eq_refl eq_refl eq_refl) as (evs & w' & Hrun & _ & _ & Hfs).
  exists w'. split; [exact Hrun |]. split; [| exact Hfs].
  change w' with (snd (Ok tt, w')). rewrite <- Hrun. reflexivity.
Defined.

(** ** Batch mode *)

(** X14. In batch mode, when the queries were read and resolved and the
    output file then cannot be opened, the results are dropped: the
    program prints [Error: ...] with the text of the exception and
    returns normally, no result line is printed and no file is changed. *)
Theorem batch_results_dropped_when_output_unwritable env args path out e results w w1 :
  given (input args) = Some path ->
  batch args = true ->
  given (output args) = Some out ->
  open_w_fails env out = Some e ->
  batch_collect env path w = (Ok results, w1) ->
  main env args w
  = (Ok tt, emit (EvPrint ("Error: " +:+ err_msg e)) (emit (EvOpenW out) w1)) /\
  fs w1 = fs w.
Proof.
  intros Hin Hb Hout Hopen Hc. unfold main. rewrite Hin, Hb.
  unfold batch_mode, try_except, bind.
  rewrite Hc, (batch_report_denied env _ out e) by assumption.
  split; [reflexivity |].
  destruct (batch_collect_effect env path w) as (r & res_evs & b & Hc' & _).
  cbn zeta in Hc'. rewrite Hc in Hc'. injection Hc' as _ ->. reflexivity.
Qed.

Lemma batch_results_dropped_when_output_unwritable_witness :
  let args := mk_args (Some "names.txt") (Some "/proc/out.txt") None true in
  let e := mk_error OSError "[Errno 13] Permission denied: '/proc/out.txt'" in
  given (input args) = Some "names.txt" /\
  batch args = true /\
  given (output args) = Some "/proc/out.txt" /\
  open_w_fails Lab.env "/proc/out.txt" = Some e /\
  fst (batch_collect Lab.env "names.txt" Lab.world)
  = Ok [("water", Some "O"); ("bogusname", None)] /\
  stdout_of (trace (snd (main Lab.env args Lab.world)))
  = ["No compounds found for 'bogusname' in PubChem";
     "Error: [Errno 13] Permission denied: '/proc/out.txt'"].
Proof.
  intros args e.
  split; [reflexivity |]. split; [reflexivity |]. split; [reflexivity |].
  split; [reflexivity |]. split; [reflexivity |].
  rewrite (proj1 (batch_results_dropped_when_output_unwritable Lab.env args
                    "names.txt" "/proc/out.txt" e _ Lab.world _
                    eq_refl eq_refl eq_refl eq_refl eq_refl)).
  reflexivity.
Defined.

Lemma name_to_smiles_parses_once env s w :
  List.filter is_parse (trace (snd (name_to_smiles env s w)))
  = (List.filter is_parse (trace w) ++ [EvParse s])%list.
Proof.
  unfold_calls. repeat (cbn; case_split); cbn; world_shape;
    rewrite List.filter_app; reflexivity.
Qed.

Lemma resolved_in_turn_parses env w names rs w' :
  resolved_in_turn env w names rs w' ->
  List.filter is_parse (trace w')
  = (List.filter is_parse (trace w) ++ map EvParse names)%list.
Proof.
  induction 1 as [w | w name r w1 names rs w2 Hrun _ IH].
  - now rewrite app_nil_r.
  - pose proof (name_to_smiles_parses_once env name w) as Hp.
    rewrite Hrun in Hp. cbn [snd] in Hp.
    rewrite IH, Hp, <- app_assoc. reflexivity.
Qed.

Lemma no_parse_among_report_events evs :
  Forall is_report_event evs -> List.filter is_parse evs = [].
Proof.
  induction 1 as [| ev evs Hev _ IH]; [reflexivity |].
  destruct ev; cbn in *; solve [assumption | contradiction].
Qed.

(** The parses of a batch. *)
Lemma batch_parse_events env args path content w :
  given (input args) = Some path ->
  batch args = true ->
  fs w !! path = Some (Text content) ->
  List.filter is_parse (trace (snd (main env args w)))
  = (List.filter is_parse (trace w)
     ++ map EvParse (query_names (delivered_lines env path content)))%list.
Proof.
  intros Hin Hb Hfile. unfold main. rewrite Hin, Hb.
  destruct (batch_mode_effect env path (output args) w)
    as (res_evs & out_evs & f & b & Hrun & _ & Hout & Hturn & _).
  rewrite Hrun. cbn [snd trace].
  destruct (Hturn content Hfile) as (rs & Hrs).
  apply resolved_in_turn_parses in Hrs. unfold emit in Hrs. cbn [trace] in Hrs.
  rewrite (List.filter_app _ (trace w) [EvOpenR path]) in Hrs.
  cbn [List.filter is_parse] in Hrs. rewrite app_nil_r in Hrs.
  change (EvOpenR path :: res_evs ++ out_evs)%list
    with ((EvOpenR path :: res_evs) ++ out_evs)%list.
  rewrite app_assoc, List.filter_app, Hrs.
  rewrite (no_parse_among_report_events out_evs Hout). apply app_nil_r.
Qed.

(** X15. In batch mode the validator is called exactly once for each
    query the input file delivers, in the order of the file and on the
    stripped line; a name that occurs twice is parsed twice, and nothing
    else is ever parsed. *)
Theorem batch_parses_each_query_once env args path content w :
  given (input args) = Some path ->
  batch args = true ->
  fs w !! path = Some (Text content) ->
  List.filter is_parse (trace (snd (main env args w)))
  = (List.filter is_parse (trace w)
     ++ map EvParse (query_names (delivered_lines env path content)))%list.
Proof. apply batch_parse_events. Qed.

Lemma batch_parses_each_query_once_witness :
  let content := "water" +:+ LF +:+ Lab.EM_SPACE +:+ LF +:+ Lab.NBSP +:+ " water" in
  let twice := {| trace := [];
                  fs := mk_fs Lab.canon_path {[ "twice.txt" := Text content ]};
                  pubchempy := true |} in
  let args := mk_args (Some "twice.txt") None None true in
  given (input args) = Some "twice.txt" /\
  batch args = true /\
  fs twice !! "twice.txt" = Some (Text content) /\
  List.filter is_parse (trace (snd (main Lab.env args twice)))
  = [EvParse "water"; EvParse "water"].
Proof.
  intros content twice args.
  split; [reflexivity |]. split; [reflexivity |]. split; [reflexivity |].
  rewrite (batch_parses_each_query_once Lab.env args "twice.txt"
             content twice eq_refl eq_refl eq_refl).
  reflexivity.
Defined.

(** ** What reaches the Resolver *)

Ltac each_white_space H :=
  unfold white_space in H; cbn [map utf8 fold_right] in H;
  repeat (destruct H as [<- | H]; [| try contradiction]).

(** A white space character at the front is dropped. *)
Lemma lstrip_white_space c x : In c white_space -> lstrip (c +:+ x) = lstrip x.
Proof. intros H. each_white_space H; reflexivity. Qed.

Lemma white_space_not_empty c : In c white_space -> c <> "".
Proof. intros H. each_white_space H; discriminate. Qed.

Lemma ascii_of_code a n : nat_of_ascii a = n -> a = ascii_of_nat n.
Proof. intros <-. symmetry. apply ascii_nat_embedding. Qed.

Ltac listed :=
  unfold white_space; cbn [map utf8 fold_right];
  repeat (first [left; reflexivity | right]).

(** What [py_isspace], [py_isspace2] and [py_isspace3] accept is a white
    space character, and nothing else is. *)
Lemma isspace_listed a : py_isspace a = true -> In (String a "") white_space.
Proof.
  unfold py_isspace. cbv zeta.
  rewrite orb_true_iff, !andb_true_iff, !Nat.leb_le. intros H.
  assert (Hn : let n := nat_of_ascii a in
               (n = 9 \/ n = 10 \/ n = 11 \/ n = 12 \/ n = 13 \/
                n = 28 \/ n = 29 \/ n = 30 \/ n = 31 \/ n = 32)%nat) by (cbv zeta; lia).
  cbv zeta in Hn.
  repeat (destruct Hn as [Hn | Hn]); rewrite (ascii_of_code _ _ Hn); listed.
Qed.

Lemma isspace2_listed a d :
  py_isspace2 a d = true -> In (String a (String d "")) white_space.
Proof.
  unfold py_isspace2. cbv zeta.
  rewrite andb_true_iff, orb_true_iff, !Nat.eqb_eq. intros [Ha Hd].
  rewrite (ascii_of_code _ _ Ha).
  destruct Hd as [Hd | Hd]; rewrite (ascii_of_code _ _ Hd); listed.
Qed.

Lemma isspace3_listed a d e :
  py_isspace3 a d e = true -> In (String a (String d (String e ""))) white_space.
Proof.
  unfold py_isspace3. cbv zeta.
  rewrite !orb_true_iff, !andb_true_iff, !orb_true_iff, !andb_true_iff,
    !Nat.eqb_eq, !Nat.leb_le.
  intros H.
  assert (Hn : let n := nat_of_ascii a in
               let m := nat_of_ascii d in
               let k := nat_of_ascii e in
               (n = 225 /\ m = 154 /\ k = 128 \/
               n = 226 /\ m = 128 /\
                 (k = 128 \/ k = 129 \/ k = 130 \/ k = 131 \/ k = 132 \/ k = 133 \/
                  k = 134 \/ k = 135 \/ k = 136 \/ k = 137 \/ k = 138 \/
                  k = 168 \/ k = 169 \/ k = 175) \/
               n = 226 /\ m = 129 /\ k = 159 \/
               n = 227 /\ m = 128 /\ k = 128)%nat) by (cbv zeta; lia).
  cbv zeta in Hn.
  destruct Hn as [(Ha & Hd & He) | [(Ha & Hd & He) | [(Ha & Hd & He) | (Ha & Hd & He)]]];
    rewrite (ascii_of_code _ _ Ha), (ascii_of_code _ _ Hd);
    repeat (destruct He as [He | He]); rewrite (ascii_of_code _ _ He); listed.
Qed.

(** What [lstrip] drops is white space. *)
Lemma lstrip_drops_white_upto k s :
  (String.length s <= k)%nat -> exists pre, white pre /\ s = pre +:+ lstrip s.
Proof.
  assert (Hnone : forall t, exists pre, white pre /\ t = pre +:+ t)
    by (intros t; exists ""; split; [exists []; split; [constructor | reflexivity] |];
        reflexivity).
  assert (Hmore : forall c t s1,
            In c white_space ->
            (exists pre, white pre /\ s1 = pre +:+ t) ->
            exists pre, white pre /\ c +:+ s1 = pre +:+ t).
  { intros c t s1 Hc (pre & (cs & Hcs & ->) & ->).
    exists (c +:+ join cs). split; [| now rewrite string_app_assoc].
    exists (c :: cs). split; [constructor; assumption | reflexivity]. }
  revert s. induction k as [| k IH]; intros s Hk.
  - destruct s; [apply Hnone | cbn in Hk; lia].
  - destruct s as [| a s1]; [apply Hnone |].
    cbn [lstrip]. cbn [String.length] in Hk.
    destruct (py_isspace a) eqn:Ha.
    { apply (Hmore (String a "") _ s1 (isspace_listed a Ha)), IH. lia. }
    destruct s1 as [| d s2]; [apply Hnone |]. cbn [String.length] in Hk.
    destruct (py_isspace2 a d) eqn:Had.
    { apply (Hmore (String a (String d "")) _ s2 (isspace2_listed a d Had)), IH. lia. }
    destruct s2 as [| e s3]; [apply Hnone |]. cbn [String.length] in Hk.
    destruct (py_isspace3 a d e) eqn:Hade; [| apply Hnone].
    apply (Hmore (String a (String d (String e ""))) _ s3 (isspace3_listed a d e Hade)), IH.
    lia.
Qed.

Lemma lstrip_drops_white s : exists pre, white pre /\ s = pre +:+ lstrip s.
Proof. apply (lstrip_drops_white_upto (String.length s)). lia. Qed.

(** What [lstrip] returns starts with no white space character. *)
Lemma lstrip_starts_clean_upto k s c x :
  (String.length s <= k)%nat -> In c white_space -> lstrip s <> c +:+ x.
Proof.
  revert s. induction k as [| k IH]; intros s Hk Hc.
  - destruct s; [| cbn in Hk; lia]. cbn. intros Heq. symmetry in Heq. revert Heq.
    each_white_space Hc; discriminate.
  - destruct s as [| a s1]; [apply IH; [cbn; lia | exact Hc] |].
    cbn [lstrip]. cbn [String.length] in Hk.
    destruct (py_isspace a) eqn:Ha; [apply IH; [lia | exact Hc] |].
    destruct s1 as [| d s2].
    { intros Heq. each_white_space Hc;
        (discriminate Heq || (injection Heq as -> _; discriminate Ha)). }
    cbn [String.length] in Hk.
    destruct (py_isspace2 a d) eqn:Had; [apply IH; [lia | exact Hc] |].
    destruct s2 as [| e s3].
    { intros Heq. each_white_space Hc;
        first [ discriminate Heq
              | injection Heq as -> _; discriminate Ha
              | injection Heq as -> -> _; discriminate Had ]. }
    cbn [String.length] in Hk.
    destruct (py_isspace3 a d e) eqn:Hade; [apply IH; [lia | exact Hc] |].
    intros Heq. each_white_space Hc;
      first [ injection Heq as -> _; discriminate Ha
            | injection Heq as -> -> _; discriminate Had
            | injection Heq as -> -> -> _; discriminate Hade ].
Qed.

Lemma lstrip_starts_clean s c x : In c white_space -> lstrip s <> c +:+ x.
Proof. apply (lstrip_starts_clean_upto (String.length s)). lia. Qed.

(** What [rstrip] cuts off is white space, and nothing it keeps at the
    end could have been cut off too. *)
Lemma rstrip_spec s :
  exists u,
    s = rstrip s +:+ u /\
    all_space u = true /\
    forall q t, rstrip s = q +:+ t -> t <> "" -> all_space (t +:+ u) = false.
Proof.
  induction s as [| c s IH].
  - exists "". split; [reflexivity |]. split; [reflexivity |].
    intros q t H. destruct q, t; solve [discriminate H | congruence].
  - cbn [rstrip]. destruct (all_space (String c s)) eqn:Ha.
    + exists (String c s). split; [reflexivity |]. split; [exact Ha |].
      intros q t H. destruct q, t; solve [discriminate H | congruence].
    + destruct IH as (u & Hs & Hu & Hsuf). exists u.
      change (String c (rstrip s) +:+ u) with (String c (rstrip s +:+ u)).
      split; [now rewrite <- Hs |]. split; [exact Hu |].
      intros q t H Ht. destruct q as [| a q].
      * change (String c (rstrip s) = t) in H. subst t.
        change (String c (rstrip s) +:+ u) with (String c (rstrip s +:+ u)).
        now rewrite <- Hs.
      * change (String a q +:+ t) with (String a (q +:+ t)) in H.
        injection H as _ H. exact (Hsuf q t H Ht).
Qed.

(** [strip] drops white space only. *)
Lemma strip_drops_white s :
  exists pre post, white pre /\ white post /\ s = pre +:+ strip s +:+ post.
Proof.
  destruct (lstrip_drops_white s) as (pre & Hpre & Hs).
  destruct (rstrip_spec (lstrip s)) as (u & Hl & Hu & _).
  destruct (lstrip_drops_white u) as (post & Hpost & Hu').
  unfold all_space in Hu. apply String.eqb_eq in Hu.
  rewrite Hu, string_app_nil_r in Hu'. subst u.
  exists pre, post. split; [exact Hpre |]. split; [exact Hpost |].
  unfold strip. now rewrite <- Hl.
Qed.

(** [strip] leaves no white space character at either end. *)
Lemma strip_trimmed s : trimmed (strip s).
Proof.
  intros c x Hc. unfold strip.
  destruct (rstrip_spec (lstrip s)) as (u & Hs & Hu & Hsuf). split; intros Heq.
  - rewrite Heq, string_app_assoc in Hs.
    exact (lstrip_starts_clean s c (x +:+ u) Hc Hs).
  - specialize (Hsuf x c Heq (white_space_not_empty c Hc)).
    unfold all_space in Hsuf, Hu. rewrite (lstrip_white_space c u Hc) in Hsuf.
    congruence.
Qed.

Lemma query_names_trimmed lines :
  Forall (fun n => n <> "" /\ trimmed n) (query_names lines).
Proof.
  unfold query_names. induction lines as [| line rest IH]; cbn; [constructor |].
  destruct (String.eqb_spec (strip line) ""); cbn; [exact IH |].
  constructor; [| exact IH]. split; [assumption | apply strip_trimmed].
Qed.

(** X16. In batch mode every string handed to the validator is a line
    of the input file, stripped, and is not empty: the line is that
    string between two runs of the white space characters of Unicode,
    and the string neither starts nor ends with such a character.  Blank
    lines and lines of nothing but such characters never reach the
    Resolver. *)
Theorem batch_queries_are_trimmed env args path content w n :
  given (input args) = Some path ->
  batch args = true ->
  fs w !! path = Some (Text content) ->
  In (EvParse n) (trace (snd (main env args w))) ->
  In (EvParse n) (trace w) \/
  (n <> "" /\ trimmed n /\
   exists line pre post,
     In line (py_lines content) /\ n = strip line /\
     white pre /\ white post /\ line = pre +:+ n +:+ post).
Proof.
  intros Hin Hb Hfile Hn.
  assert (Hf : In (EvParse n) (List.filter is_parse (trace (snd (main env args w)))))
    by (apply List.filter_In; split; [exact Hn | reflexivity]).
  rewrite (batch_parse_events env args path content w Hin Hb Hfile) in Hf.
  apply List.in_app_or in Hf. destruct Hf as [Hold | Hnew].
  - left. apply List.filter_In in Hold. tauto.
  - right. apply List.in_map_iff in Hnew. destruct Hnew as (n' & [= ->] & Hq).
    pose proof (query_names_trimmed (delivered_lines env path content)) as Hall.
    rewrite List.Forall_forall in Hall. destruct (Hall n Hq) as (Hne & Htrim).
    split; [exact Hne |]. split; [exact Htrim |].
    unfold query_names in Hq. apply List.filter_In in Hq. destruct Hq as (Hq & _).
    apply List.in_map_iff in Hq. destruct Hq as (line & <- & Hline).
    destruct (strip_drops_white line) as (pre & post & Hpre & Hpost & Hsplit).
    exists line, pre, post.
    split; [| split; [reflexivity | split; [exact Hpre | split; [exact Hpost | exact Hsplit]]]].
    unfold delivered_lines in Hline.
    destruct (read_fault env path) as [[k e] |]; [| exact Hline].
    rewrite <- list_elem_of_In in *. eapply subseteq_take. exact Hline.
Qed.

Lemma batch_queries_are_trimmed_witness :
  let args := mk_args (Some "nbsp.txt") None None true in
  let content := Lab.NBSP +:+ "water" +:+ Lab.NBSP +:+ LF +:+ Lab.EM_SPACE +:+ LF in
  given (input args) = Some "nbsp.txt" /\
  batch args = true /\
  fs Lab.world !! "nbsp.txt" = Some (Text content) /\
  List.filter is_parse (trace (snd (main Lab.env args Lab.world))) = [EvParse "water"] /\
  py_lines content = [Lab.NBSP +:+ "water" +:+ Lab.NBSP +:+ LF; Lab.EM_SPACE +:+ LF] /\
  (In (EvParse "water") (trace Lab.world) \/
   ("water" <> "" /\ trimmed "water" /\
    exists line pre post,
      In line (py_lines content) /\ "water" = strip line /\
      white pre /\ white post /\ line = pre +:+ "water" +:+ post)).
Proof.
  intros args content.
  assert (Hin : In (EvParse "water") (trace (snd (main Lab.env args Lab.world))))
    by (vm_compute; repeat (first [left; reflexivity | right])).
  split; [reflexivity |]. split; [reflexivity |]. split; [reflexivity |].
  split; [reflexivity |]. split; [reflexivity |].
  exact (batch_queries_are_trimmed Lab.env args "nbsp.txt" content Lab.world "water"
           eq_refl eq_refl eq_refl Hin).
Defined.

(** ** Errors while reading a batch *)

(** X17. In batch mode, when the input file does not exist, the program
    opens nothing else and resolves nothing: it prints [Error: ...] with
    the text of the [OSError] and returns normally. *)
Theorem batch_missing_input_is_reported env args path w :
  given (input args) = Some path ->
  batch args = true ->
  fs w !! path = None ->
  exists e,
    err_class e = OSError /\
    main env args w
    = (Ok tt, emit (EvPrint ("Error: " +:+ err_msg e)) (emit (EvOpenR path) w)).
Proof.
  intros Hin Hb Hfile. unfold main. rewrite Hin, Hb.
  unfold batch_mode, batch_collect, open_r, try_except, bind, log, print. cbn.
  rewrite Hfile. eexists. split; [| reflexivity]. reflexivity.
Qed.

Lemma batch_missing_input_is_reported_witness :
  let args := mk_args (Some "missing.txt") (Some "old.txt") None true in
  given (input args) = Some "missing.txt" /\
  batch args = true /\
  fs Lab.world !! "missing.txt" = None /\
  exists e,
    err_class e = OSError /\
    main Lab.env args Lab.world
    = (Ok tt, emit (EvPrint ("Error: " +:+ err_msg e))
                (emit (EvOpenR "missing.txt") Lab.world)).
Proof.
  intros args. split; [reflexivity |]. split; [reflexivity |]. split; [reflexivity |].
  exact (batch_missing_input_is_reported Lab.env args "missing.txt" Lab.world
           eq_refl eq_refl eq_refl).
Defined.

(** X18. In batch mode, when reading the input file fails after some
    lines were delivered, the queries of those lines have been resolved
    in turn, but none of their results is reported: the program prints
    [Error: ...] with the text of the read error right after the last
    resolution and returns normally. *)
Theorem batch_read_error_drops_results env args path content k e w :
  given (input args) = Some path ->
  batch args = true ->
  fs w !! path = Some (Text content) ->
  read_fault env path = Some (k, e) ->
  exists rs w1,
    resolved_in_turn env (emit (EvOpenR path) w)
      (query_names (take k (py_lines content))) rs w1 /\
    main env args w = (Ok tt, emit (EvPrint ("Error: " +:+ err_msg e)) w1).
Proof.
  intros Hin Hb Hfile Hfault. unfold main. rewrite Hin, Hb.
  destruct (batch_collect_effect env path w) as (r & res_evs & b & Hc & _ & _ & Hturn).
  cbn zeta in Hc, Hturn. destruct (Hturn content Hfile) as (rs & Hrs & Hr).
  unfold delivered_lines in Hrs. rewrite Hfault in Hrs, Hr. subst r.
  eexists rs, _. split; [exact Hrs |].
  unfold batch_mode, try_except, bind. rewrite Hc. reflexivity.
Qed.

Lemma batch_read_error_drops_results_witness :
  let e := mk_error OSError "[Errno 5] Input/output error" in
  let env := Lab.machine Lab.rdkit Lab.pubchem (PipDone true) (fun _ => Some (1%nat, e)) [] EOF in
  let args := mk_args (Some "names.txt") None None true in
  given (input args) = Some "names.txt" /\
  batch args = true /\
  read_fault env "names.txt" = Some (1%nat, e) /\
  exists rs w1,
    resolved_in_turn env (emit (EvOpenR "names.txt") Lab.world)
      (query_names (take 1 (py_lines ("water" +:+ LF +:+ LF +:+ "  bogusname " +:+ LF))))
      rs w1 /\
    main env args Lab.world
    = (Ok tt, emit (EvPrint "Error: [Errno 5] Input/output error") w1).
Proof.
  intros e env args. split; [reflexivity |]. split; [reflexivity |].
  split; [reflexivity |].
  exact (batch_read_error_drops_results env args "names.txt"
           ("water" +:+ LF +:+ LF +:+ "  bogusname " +:+ LF) 1%nat e Lab.world
           eq_refl eq_refl eq_refl eq_refl).
Defined.

(** ** The image of a looked-up structure *)

(** X19. The structure PubChem returns is not validated by the
    Resolver, and the Renderer parses it again: in single mode with an
    image path, when the validator rejects the resolved structure, the
    structure is still reported, nothing is drawn, the image file is not
    touched, and the last line printed is [Could not generate molecular
    structure image]. *)
Theorem unparsable_structure_is_reported_not_drawn env args s t img w w1 :
  given (input args) = Some s ->
  batch args = false ->
  given (output args) = None ->
  given (image args) = Some img ->
  name_to_smiles env s w = (Ok (Some t), w1) ->
  t <> "" ->
  MolFromSmiles env t = Returned None ->
  main env args w
  = (Ok tt,
     {| trace := trace w1 ++ [EvPrint t; EvParse t;
                              EvPrint "Could not generate molecular structure image"];
        fs := fs w; pubchempy := pubchempy w1 |}).
Proof.
  intros Hin Hb Hout Himg Hres Ht Hm. unfold main. rewrite Hin, Hb.
  unfold single_mode, bind. rewrite Hres.
  assert (Htruthy : truthy (Some t) = true).
  { cbn. destruct (String.eqb_spec t ""); [contradiction | reflexivity]. }
  rewrite Htruthy, single_report_stdout, Himg by assumption. cbn [py_str].
  unfold_calls. cbn. rewrite Hm. cbn. world_shape.
  destruct (name_to_smiles_effect env s w) as (r & evs & b & Heq & _).
  rewrite Heq in Hres. injection Hres as _ <-. reflexivity.
Qed.

Lemma unparsable_structure_is_reported_not_drawn_witness :
  let env := Lab.machine Lab.rdkit (fun _ => Returned [mk_compound 7 (Some "C1CC")]) (PipDone true) (fun _ => None) [] EOF in
  let args := mk_args (Some "cyclopropane") None (Some "ring.png") false in
  given (input args) = Some "cyclopropane" /\
  batch args = false /\
  given (output args) = None /\
  given (image args) = Some "ring.png" /\
  fst (name_to_smiles env "cyclopropane" Lab.world) = Ok (Some "C1CC") /\
  MolFromSmiles env "C1CC" = Returned None /\
  stdout_of (trace (snd (main env args Lab.world)))
  = ["C1CC"; "Could not generate molecular structure image"].
Proof.
  intros env args.
  split; [reflexivity |]. split; [reflexivity |]. split; [reflexivity |].
  split; [reflexivity |]. split; [reflexivity |]. split; [reflexivity |].
  rewrite (unparsable_structure_is_reported_not_drawn env args "cyclopropane" "C1CC"
             "ring.png" Lab.world _ eq_refl eq_refl eq_refl eq_refl eq_refl
             ltac:(discriminate) eq_refl).
  reflexivity.
Defined.
